(** * OpenTTD [strings_internal.h]: [StringParameters] and [StringBuilder]

    A shallow embedding of the two classes of [src/strings_internal.h] and
    the properties of the parameter list and of the output builder.

    - [uint] fields are [Z] with the 32-bit wrap-around written out;
      [uint64] slots and [WChar] tags are [Z]; [size_t] is [Z] with the
      64-bit wrap-around written out.
    - Pointers into the [uint64] and [WChar] arrays are addresses ([Z]);
      the arrays live in two heaps, finite maps from addresses to values.
      A [StringParameters*] is an object reference into a third finite map
      of live instances, so that a child view and its parent alias the same
      slots and the destructor can write the parent's [offset].
    - [assert] is active (a debug build): a failed assertion stops the
      program, and the outcome records the memory at that point. Reading or
      writing an address outside every array, or using a dead instance, is
      undefined behaviour. *)

From Stdlib Require Import ZArith Ascii String List Lia.
From stdpp Require Import base option list gmap.

Local Open Scope Z_scope.

(** ** Fixed-width integers *)

Definition wrap (w x : Z) : Z := x mod 2 ^ w.

(** [uint] arithmetic. *)
Definition wrap32 (x : Z) : Z := wrap 32 x.

(** [size_t] arithmetic. *)
Definition wrap64 (x : Z) : Z := wrap 64 x.

(** Conversion to the signed [w]-bit integer with the same low [w] bits. *)
Definition to_signed (w x : Z) : Z :=
  let y := wrap w x in if y <? 2 ^ (w - 1) then y else y - 2 ^ w.

Definition to_int64 (x : Z) : Z := to_signed 64 x.
Definition to_int32 (x : Z) : Z := to_signed 32 x.

Definition is_uint (x : Z) : Prop := 0 <= x < 2 ^ 32.
Definition is_size_t (x : Z) : Prop := 0 <= x < 2 ^ 64.

(** ** Memory *)

Definition objref := nat.

(** The fields of [class StringParameters], in the order of the class. *)
Record StringParameters : Type := mkStringParameters {
  parent : option objref;  (* nullptr is None *)
  data : Z;                (* address of the first slot *)
  type : option Z;         (* address of the first tag; nullptr is None *)
  offset : Z;
  num_param : Z;
  next_type : Z
}.

Definition set_offset (o : Z) (sp : StringParameters) : StringParameters :=
  {| parent := parent sp; data := data sp; type := type sp;
     offset := o; num_param := num_param sp; next_type := next_type sp |}.

Record Memory : Type := mkMemory {
  slots : gmap Z Z;                      (* uint64 objects, by address *)
  tags : gmap Z Z;                       (* WChar objects, by address *)
  objects : gmap objref StringParameters (* live instances *)
}.

Definition with_slots (h : gmap Z Z) (m : Memory) : Memory :=
  {| slots := h; tags := tags m; objects := objects m |}.

Definition with_objects (o : gmap objref StringParameters) (m : Memory) : Memory :=
  {| slots := slots m; tags := tags m; objects := o |}.

(** [n] consecutive elements starting at address [a] are inside an array. *)
Definition mapped (h : gmap Z Z) (a n : Z) : Prop :=
  forall i, 0 <= i < n -> is_Some (h !! (a + i)).

Definition mappedb (h : gmap Z Z) (a n : Z) : bool :=
  forallb (fun i => bool_decide (is_Some (h !! (a + i)))) (seqZ 0 n).

(** ** Outcomes of a call *)

Inductive outcome (A : Type) : Type :=
| Done (a : A) (m : Memory)       (* returned [a], memory is now [m] *)
| AssertionFailed (m : Memory)    (* an [assert] failed with memory [m] *)
| Undefined.                      (* undefined behaviour *)

Arguments Done {A} a m.
Arguments AssertionFailed {A} m.
Arguments Undefined {A}.

Definition M (A : Type) : Type := Memory -> outcome A.

Definition ret {A} (a : A) : M A := fun m => Done a m.

Definition bind {A B} (c : M A) (k : A -> M B) : M B :=
  fun m =>
    match c m with
    | Done a m' => k a m'
    | AssertionFailed m' => AssertionFailed m'
    | Undefined => Undefined
    end.

Declare Scope cxx_scope.
Delimit Scope cxx_scope with cxx.
Notation "x <- c1 ;; c2" := (bind c1 (fun x => c2))
  (at level 100, c1 at next level, right associativity) : cxx_scope.
Notation "c1 ;; c2" := (bind c1 (fun _ => c2))
  (at level 100, right associativity) : cxx_scope.
Local Open Scope cxx_scope.

Definition returned {A} (o : outcome A) : option A :=
  match o with Done a _ => Some a | _ => None end.

Definition assert (b : bool) : M unit :=
  fun m => if b then Done tt m else AssertionFailed m.

Definition undefined {A} : M A := fun _ => Undefined.

(** Access to the instance [*this]. *)
Definition get_object (this : objref) : M StringParameters :=
  fun m => match objects m !! this with
           | Some sp => Done sp m
           | None => Undefined
           end.

Definition put_object (this : objref) (sp : StringParameters) : M unit :=
  fun m => Done tt (with_objects (<[this := sp]> (objects m)) m).

(** A new instance becomes live at an unused reference. *)
Definition new_object (sp : StringParameters) : M objref :=
  fun m => let r := fresh (dom (objects m)) in
           Done r (with_objects (<[r := sp]> (objects m)) m).

Definition delete_object (this : objref) : M unit :=
  fun m => Done tt (with_objects (delete this (objects m)) m).

Definition load_slot (a : Z) : M Z :=
  fun m => match slots m !! a with
           | Some v => Done v m
           | None => Undefined
           end.

Definition store_slot (a v : Z) : M unit :=
  fun m => match slots m !! a with
           | Some _ => Done tt (with_slots (<[a := v]> (slots m)) m)
           | None => Undefined
           end.

Definition load_tag (a : Z) : M Z :=
  fun m => match tags m !! a with
           | Some v => Done v m
           | None => Undefined
           end.

(** ** [class StringParameters] *)

(** [uint GetDataLeft() const] *)
Definition GetDataLeft (this : objref) : M Z :=
  sp <- get_object this ;;
  ret (wrap32 (num_param sp - offset sp)).

(** [StringParameters(uint64 *data, uint num_param, WChar *type)] *)
Definition StringParameters_ctor (data' : Z) (num_param' : Z) (type' : option Z)
  : M objref :=
  new_object {| parent := None; data := data'; type := type';
                offset := 0; num_param := num_param'; next_type := 0 |}.

(** [template <size_t Tnum_param> StringParameters(int64 (&data)[Tnum_param])]:
    the array is the [Tnum_param] slots at address [data']; the [size_t]
    length is converted to [uint]. *)
Definition StringParameters_array (data' : Z) (Tnum_param : Z) : M objref :=
  new_object {| parent := None; data := data'; type := None;
                offset := 0; num_param := wrap32 Tnum_param; next_type := 0 |}.

(** [StringParameters(StringParameters &parent, uint size)]. The member
    initialisers only read the parent; the instance is live once the body,
    which begins with the assertion, has run. *)
Definition StringParameters_sub (parent' : objref) (size : Z) : M objref :=
  p <- get_object parent' ;;
  left <- GetDataLeft parent' ;;
  assert (size <=? left) ;;
  new_object {| parent := Some parent';
                data := data p + offset p;
                type := match type p with
                        | None => None
                        | Some t => Some (t + offset p)
                        end;
                offset := 0; num_param := size; next_type := 0 |}.

(** [~StringParameters()], after which the instance is dead. *)
Definition StringParameters_dtor (this : objref) : M unit :=
  sp <- get_object this ;;
  match parent sp with
  | Some p =>
      pp <- get_object p ;;
      put_object p (set_offset (wrap32 (offset pp + num_param sp)) pp)
  | None => ret tt
  end ;;
  delete_object this.

(** Modelled from the spec: [int64 GetInt64()] is declared in the header and
    defined elsewhere. "Returns the value at cursor, reinterpreted as a
    signed 64-bit integer, and advances cursor by one. Fails (precondition
    violation, fatal in debug builds) if cursor >= length." *)
Definition GetInt64 (this : objref) : M Z :=
  sp <- get_object this ;;
  assert (offset sp <? num_param sp) ;;
  v <- load_slot (data sp + offset sp) ;;
  put_object this (set_offset (wrap32 (offset sp + 1)) sp) ;;
  ret (to_int64 v).

(** [int32 GetInt32()] *)
Definition GetInt32 (this : objref) : M Z :=
  v <- GetInt64 this ;;
  ret (to_int32 v).

(** [StringParameters GetRemainingParameters()] *)
Definition GetRemainingParameters (this : objref) : M objref :=
  sp <- get_object this ;;
  left <- GetDataLeft this ;;
  StringParameters_ctor (data sp + offset sp) left
    (match type sp with
     | None => None
     | Some t => Some (t + offset sp)
     end).

(** [uint64 *GetPointerToOffset(uint offset) const] *)
Definition GetPointerToOffset (this : objref) (offset' : Z) : M Z :=
  sp <- get_object this ;;
  assert (offset' <? num_param sp) ;;
  ret (data sp + offset').

(** [bool HasTypeInformation() const] *)
Definition HasTypeInformation (this : objref) : M bool :=
  sp <- get_object this ;;
  ret (match type sp with Some _ => true | None => false end).

(** [WChar GetTypeAtOffset(uint offset) const] *)
Definition GetTypeAtOffset (this : objref) (offset' : Z) : M Z :=
  sp <- get_object this ;;
  assert (offset' <? num_param sp) ;;
  has <- HasTypeInformation this ;;
  assert has ;;
  match type sp with
  | Some t => load_tag (t + offset')
  | None => undefined
  end.

(** [void SetParam(uint n, uint64 v)] *)
Definition SetParam (this : objref) (n v : Z) : M unit :=
  sp <- get_object this ;;
  assert (n <? num_param sp) ;;
  store_slot (data sp + n) v.

(** [uint64 GetParam(uint n) const] *)
Definition GetParam (this : objref) (n : Z) : M Z :=
  sp <- get_object this ;;
  assert (n <? num_param sp) ;;
  load_slot (data sp + n).

(** A run of reads through the cursor, each by [GetInt64] or [GetInt32]. *)
Inductive reader : Type := Int64 | Int32.

Definition read_one (k : reader) (this : objref) : M Z :=
  match k with
  | Int64 => GetInt64 this
  | Int32 => GetInt32 this
  end.

Fixpoint read_all (calls : list reader) (this : objref) : M (list Z) :=
  match calls with
  | [] => ret []
  | k :: rest =>
      v <- read_one k this ;;
      vs <- read_all rest this ;;
      ret (v :: vs)
  end.

(** What a read returns for the slot value [v]. *)
Definition read_value (k : reader) (v : Z) : Z :=
  match k with
  | Int64 => to_int64 v
  | Int32 => to_int32 (to_int64 v)
  end.

(** The cursor of a live instance. *)
Definition cursor (m : Memory) (this : objref) : option Z :=
  offset <$> objects m !! this.

(** The memory in which the cursor of [this] has moved to [o]. *)
Definition moved_to (o : Z) (this : objref) (sp : StringParameters) (m : Memory)
  : Memory :=
  with_objects (<[this := set_offset o sp]> (objects m)) m.

(** The memory after one read through the cursor of [this]. *)
Definition advanced (m : Memory) (this : objref) (sp : StringParameters) : Memory :=
  moved_to (wrap32 (offset sp + 1)) this sp m.

(** The instance that [StringParameters(parent, size)] builds over the
    parent [P] living at [p]. *)
Definition child_view (p : objref) (P : StringParameters) (size : Z)
  : StringParameters :=
  {| parent := Some p;
     data := data P + offset P;
     type := match type P with
             | None => None
             | Some t => Some (t + offset P)
             end;
     offset := 0; num_param := size; next_type := 0 |}.

(** The memory with one more live instance. *)
Definition allocated (sp : StringParameters) (m : Memory) : Memory :=
  with_objects (<[fresh (dom (objects m)) := sp]> (objects m)) m.

(** A root list constructor for [n] slots at address [d]. *)
Definition root_constructor (d n : Z) (make : M objref) : Prop :=
  (exists t, make = StringParameters_ctor d n t) \/ make = StringParameters_array d n.

(** Reading the public field [offset]. *)
Definition cursor_of (this : objref) : M Z :=
  sp <- get_object this ;;
  ret (offset sp).

(** A root list over the three slots of [demo_memory]; a child of two slots
    reads one value and dies. The cursors of the parent before, of the child
    at its death, and of the parent after. *)
Definition demo_child_reads_one_of_two : M (Z * Z * Z) :=
  p <- StringParameters_ctor 100 3 (Some 200) ;;
  c <- StringParameters_sub p 2 ;;
  _ <- GetInt64 c ;;
  before <- cursor_of p ;;
  j <- cursor_of c ;;
  StringParameters_dtor c ;;
  after <- cursor_of p ;;
  ret (before, j, after).

(** ** [class StringBuilder]

    The builder holds a pointer to a [std::string] owned by the caller;
    every member acts on that string, which is the state passed here.
    A [std::string] is its sequence of [char]. *)
Module StringBuilder.

Definition buffer := list ascii.

Definition size (s : buffer) : Z := Z.of_nat (length s).

(** [std::string::erase(index)]: throws [std::out_of_range] (None) when
    [index > size()], otherwise removes everything from [index] on. *)
Definition erase (s : buffer) (index : Z) : option buffer :=
  if index <=? size s then Some (take (Z.to_nat index) s) else None.

(** [StringBuilder &operator+=(const char value)] *)
Definition append_char (value : ascii) (s : buffer) : buffer :=
  s ++ [value].

(** [StringBuilder &operator=(const char value)] *)
Definition assign_char (value : ascii) (s : buffer) : buffer :=
  append_char value s.

(** [StringBuilder &operator+=(std::string_view str)] *)
Definition append_view (str : list ascii) (s : buffer) : buffer :=
  s ++ str.

(** [void RemoveElementsFromBack(size_t amount)] *)
Definition RemoveElementsFromBack (amount : Z) (s : buffer) : option buffer :=
  erase s (wrap64 (size s - Z.min amount (size s))).

(** [size_t CurrentIndex()] *)
Definition CurrentIndex (s : buffer) : Z := size s.

(** [char &operator[](size_t index)], read and write through the
    reference. [std::string::operator[]] at [size()] refers to the
    terminating null character, which may be read; every other use outside
    the string is undefined (None). *)
Definition get_at (index : Z) (s : buffer) : option ascii :=
  if (0 <=? index) && (index <? size s) then s !! Z.to_nat index
  else if index =? size s then Some zero
  else None.

Definition set_at (index : Z) (c : ascii) (s : buffer) : option buffer :=
  if (0 <=? index) && (index <? size s)
  then Some (<[Z.to_nat index := c]> s) else None.

(** Appending a text one [char] at a time. *)
Definition append_each (str : list ascii) (s : buffer) : buffer :=
  fold_left (fun acc c => append_char c acc) str s.

End StringBuilder.

(** ** A small memory to run the code on

    Three slots 5, 7, 2 at addresses 100..102 and their tags at 200..202;
    no instance is live yet. *)
Definition demo_memory : Memory :=
  {| slots := <[100 := 5]> (<[101 := 7]> (<[102 := 2]> ∅));
     tags := <[200 := 1]> (<[201 := 2]> (<[202 := 1]> ∅));
     objects := ∅ |}.

(** The memory once the root list over the three slots is live, and the
    reference of that list. *)
Definition demo_root_memory : Memory :=
  match StringParameters_ctor 100 3 (Some 200) demo_memory with
  | Done _ m => m
  | _ => demo_memory
  end.

Definition demo_root : objref := fresh (dom (objects demo_memory)).

(** The root list over the three demo slots, as it is constructed. *)
Definition demo_root_list : StringParameters :=
  {| parent := None; data := 100; type := Some 200;
     offset := 0; num_param := 3; next_type := 0 |}.

(** The demo memory in which a child of two slots of the root list is live
    and has read one value. *)
Definition demo_child_memory : Memory :=
  match (c <- StringParameters_sub demo_root 2 ;; _ <- GetInt64 c ;; ret c)
          demo_root_memory with
  | Done _ m => m
  | _ => demo_root_memory
  end.

Definition demo_child : objref := fresh (dom (objects demo_root_memory)).

Definition demo_child_view : StringParameters :=
  {| parent := Some demo_root; data := 100; type := Some 200;
     offset := 1; num_param := 2; next_type := 0 |}.

(** The demo memory after two sub-views of the root list, of two and of
    three slots, were live at the same time and have both been destroyed. *)
Definition demo_overrun_memory : Memory :=
  match (c1 <- StringParameters_sub demo_root 2 ;;
         c2 <- StringParameters_sub demo_root 3 ;;
         StringParameters_dtor c1 ;;
         StringParameters_dtor c2) demo_root_memory with
  | Done _ m => m
  | _ => demo_root_memory
  end.

(** ** The cursor within the length

    A list whose cursor is within its length, both in the range of [uint]. *)
Definition wf_list (sp : StringParameters) : Prop :=
  0 <= offset sp <= num_param sp /\ num_param sp < 2 ^ 32.

Definition wf_memory (m : Memory) : Prop :=
  forall r sp, objects m !! r = Some sp -> wf_list sp.

(** The range of [int32]. *)
Definition is_int32 (x : Z) : Prop := - 2 ^ 31 <= x < 2 ^ 31.

(** * Basic facts *)

Lemma wrap32_small x : 0 <= x < 2 ^ 32 -> wrap32 x = x.
Proof. intros H. unfold wrap32, wrap. apply Z.mod_small. exact H. Qed.

Lemma wrap64_small x : 0 <= x < 2 ^ 64 -> wrap64 x = x.
Proof. intros H. unfold wrap64, wrap. apply Z.mod_small. exact H. Qed.

Lemma wrap32_range x : 0 <= wrap32 x < 2 ^ 32.
Proof. unfold wrap32, wrap. apply Z.mod_pos_bound. lia. Qed.

Lemma set_offset_same sp : set_offset (offset sp) sp = sp.
Proof. destruct sp; reflexivity. Qed.

Lemma with_objects_same m : with_objects (objects m) m = m.
Proof. destruct m; reflexivity. Qed.

Lemma mappedb_mapped h a n : mappedb h a n = true -> mapped h a n.
Proof.
  unfold mappedb, mapped. intros H i Hi.
  rewrite forallb_forall in H.
  specialize (H i). rewrite bool_decide_eq_true in H. apply H.
  apply list_elem_of_In, elem_of_seqZ. lia.
Qed.

Lemma mapped_tail h a n : mapped h a n -> mapped h (a + 1) (n - 1).
Proof.
  intros Hm i Hi. replace (a + 1 + i) with (a + (1 + i)) by lia.
  apply Hm. lia.
Qed.

Lemma fresh_object_unused m : objects m !! fresh (dom (objects m)) = None.
Proof. apply not_elem_of_dom, is_fresh. Qed.

Lemma live_not_fresh m r sp :
  objects m !! r = Some sp -> r <> fresh (dom (objects m)).
Proof.
  intros H ->. rewrite fresh_object_unused in H. discriminate.
Qed.

(** * The calls, one by one *)

Section Calls.

Variables (m : Memory) (this : objref) (sp : StringParameters).
Hypothesis Hlive : objects m !! this = Some sp.

Lemma get_object_live : get_object this m = Done sp m.
Proof using Hlive. unfold get_object. rewrite Hlive. reflexivity. Qed.

Lemma GetDataLeft_live :
  GetDataLeft this m = Done (wrap32 (num_param sp - offset sp)) m.
Proof using Hlive.
  unfold GetDataLeft, bind. rewrite get_object_live. reflexivity.
Qed.

Lemma HasTypeInformation_live :
  HasTypeInformation this m =
  Done (match type sp with Some _ => true | None => false end) m.
Proof using Hlive.
  unfold HasTypeInformation, bind. rewrite get_object_live. reflexivity.
Qed.

Lemma GetInt64_done v :
  offset sp < num_param sp ->
  slots m !! (data sp + offset sp) = Some v ->
  GetInt64 this m = Done (to_int64 v) (advanced m this sp).
Proof using Hlive.
  intros Hlt Hv. unfold GetInt64, bind. rewrite get_object_live.
  unfold assert. apply Z.ltb_lt in Hlt. rewrite Hlt.
  unfold load_slot. rewrite Hv. reflexivity.
Qed.

Lemma GetInt64_past_end :
  num_param sp <= offset sp -> GetInt64 this m = AssertionFailed m.
Proof using Hlive.
  intros Hge. unfold GetInt64, bind. rewrite get_object_live.
  unfold assert. apply Z.ltb_ge in Hge. rewrite Hge. reflexivity.
Qed.

Lemma GetInt64_inv r m' :
  GetInt64 this m = Done r m' ->
  offset sp < num_param sp /\ m' = advanced m this sp /\
  exists v, slots m !! (data sp + offset sp) = Some v /\ r = to_int64 v.
Proof using Hlive.
  unfold GetInt64, bind. rewrite get_object_live. unfold assert.
  destruct (offset sp <? num_param sp) eqn:Hlt; [|discriminate].
  unfold load_slot.
  destruct (slots m !! (data sp + offset sp)) as [v|] eqn:Hv; [|discriminate].
  cbn. intros [= <- <-]. apply Z.ltb_lt in Hlt. eauto.
Qed.

Lemma read_one_done k v :
  offset sp < num_param sp ->
  slots m !! (data sp + offset sp) = Some v ->
  read_one k this m = Done (read_value k v) (advanced m this sp).
Proof using Hlive.
  intros Hlt Hv. destruct k; cbn.
  - apply GetInt64_done; assumption.
  - unfold GetInt32, bind. rewrite (GetInt64_done v Hlt Hv). reflexivity.
Qed.

Lemma read_one_past_end k :
  num_param sp <= offset sp -> read_one k this m = AssertionFailed m.
Proof using Hlive.
  intros Hge. destruct k; cbn.
  - apply GetInt64_past_end; assumption.
  - unfold GetInt32, bind. rewrite (GetInt64_past_end Hge). reflexivity.
Qed.

Lemma read_one_inv k r m' :
  read_one k this m = Done r m' ->
  offset sp < num_param sp /\ m' = advanced m this sp /\
  exists v, slots m !! (data sp + offset sp) = Some v /\ r = read_value k v.
Proof using Hlive.
  destruct k; cbn.
  - apply GetInt64_inv.
  - unfold GetInt32, bind.
    destruct (GetInt64 this m) as [a m1| |] eqn:E; try discriminate.
    cbn. intros [= <- <-].
    destruct (GetInt64_inv _ _ E) as (Hlt & -> & v & Hv & ->). eauto.
Qed.

End Calls.

(** * Runs of reads *)

Lemma moved_to_same m this sp :
  objects m !! this = Some sp -> moved_to (offset sp) this sp m = m.
Proof.
  intros H. unfold moved_to.
  rewrite set_offset_same, insert_id by exact H. apply with_objects_same.
Qed.

Lemma moved_to_lookup o this sp m :
  objects (moved_to o this sp m) !! this = Some (set_offset o sp).
Proof. cbn. apply lookup_insert_eq. Qed.

Lemma moved_to_lookup_ne o this sp m r :
  r <> this -> objects (moved_to o this sp m) !! r = objects m !! r.
Proof. intros H. cbn. apply lookup_insert_ne. congruence. Qed.

Lemma moved_to_twice a b this sp m :
  moved_to a this (set_offset b sp) (moved_to b this sp m) = moved_to a this sp m.
Proof.
  unfold moved_to. cbn. rewrite insert_insert_eq. reflexivity.
Qed.

(** Reads inside the window succeed, move the cursor by their number and
    return the slots in order. *)
Lemma read_all_done calls :
  forall m this sp,
    objects m !! this = Some sp ->
    0 <= offset sp ->
    offset sp + Z.of_nat (length calls) <= num_param sp ->
    num_param sp < 2 ^ 32 ->
    mapped (slots m) (data sp + offset sp) (Z.of_nat (length calls)) ->
    exists vals,
      read_all calls this m =
        Done vals (moved_to (offset sp + Z.of_nat (length calls)) this sp m) /\
      length vals = length calls /\
      forall (i : nat) k, calls !! i = Some k ->
        vals !! i = read_value k <$> slots m !! (data sp + offset sp + Z.of_nat i).
Proof.
  induction calls as [|k calls IH]; intros m this sp Hlive H0 Hle Hn Hmap.
  - exists []. cbn. rewrite Z.add_0_r, (moved_to_same _ _ _ Hlive).
    repeat split. intros i k Hi. rewrite lookup_nil in Hi. discriminate.
  - cbn [length] in *. rewrite Nat2Z.inj_succ in *.
    destruct (Hmap 0 ltac:(lia)) as [v Hv]. rewrite Z.add_0_r in Hv.
    assert (Hstep : read_one k this m =
                    Done (read_value k v) (moved_to (offset sp + 1) this sp m)).
    { rewrite (read_one_done m this sp Hlive k v) by (assumption || lia).
      unfold advanced, moved_to. rewrite wrap32_small by lia. reflexivity. }
    destruct (IH (moved_to (offset sp + 1) this sp m) this
                 (set_offset (offset sp + 1) sp)) as (vals & Hrun & Hlen & Hvals).
    + apply moved_to_lookup.
    + cbn. lia.
    + cbn. lia.
    + exact Hn.
    + cbn. replace (Z.of_nat (length calls)) with (Z.succ (Z.of_nat (length calls)) - 1) by lia.
      replace (data sp + (offset sp + 1)) with (data sp + offset sp + 1) by lia.
      apply mapped_tail. exact Hmap.
    + exists (read_value k v :: vals). split; [|split].
      * cbn [read_all]. unfold bind at 1. rewrite Hstep.
        unfold bind at 1. rewrite Hrun. cbn [offset set_offset].
        rewrite moved_to_twice. unfold ret. do 2 f_equal. lia.
      * cbn. congruence.
      * intros [|i] k' Hi; cbn in Hi.
        -- injection Hi as <-. cbn. rewrite Z.add_0_r, Hv. reflexivity.
        -- change ((read_value k v :: vals) !! S i) with (vals !! i).
           rewrite (Hvals i k' Hi). cbn [offset set_offset data slots moved_to with_objects].
           rewrite Nat2Z.inj_succ.
           replace (data sp + offset sp + Z.succ (Z.of_nat i))
             with (data sp + (offset sp + 1) + Z.of_nat i) by lia.
           reflexivity.
Qed.

(** Reads that all returned have stayed inside the window and moved the
    cursor by their number. *)
Lemma read_all_inv calls :
  forall m this sp vals m',
    objects m !! this = Some sp ->
    0 <= offset sp <= num_param sp ->
    num_param sp < 2 ^ 32 ->
    read_all calls this m = Done vals m' ->
    offset sp + Z.of_nat (length calls) <= num_param sp /\
    m' = moved_to (offset sp + Z.of_nat (length calls)) this sp m /\
    length vals = length calls.
Proof.
  induction calls as [|k calls IH]; intros m this sp vals m' Hlive H0 Hn Hrun.
  - cbn in Hrun. injection Hrun as <- <-. cbn.
    rewrite Z.add_0_r, (moved_to_same _ _ _ Hlive). repeat split; lia.
  - cbn [read_all] in Hrun. unfold bind at 1 in Hrun.
    destruct (read_one k this m) as [v m1| |] eqn:Hone; try discriminate.
    destruct (read_one_inv m this sp Hlive k v m1 Hone) as (Hlt & -> & _).
    unfold bind at 1 in Hrun.
    destruct (read_all calls this (advanced m this sp)) as [vs m2| |] eqn:Hrest;
      try discriminate.
    cbn in Hrun. injection Hrun as <- <-.
    unfold advanced in Hrest. rewrite wrap32_small in Hrest by lia.
    apply (IH _ this (set_offset (offset sp + 1) sp)) in Hrest;
      [| apply moved_to_lookup | cbn; lia | exact Hn].
    destruct Hrest as (Hle & -> & Hlen). cbn [offset num_param set_offset length] in *.
    rewrite Nat2Z.inj_succ. split; [lia|]. split; [|congruence].
    fold (moved_to (offset sp + 1) this sp m). rewrite moved_to_twice.
    f_equal. lia.
Qed.

(** * Views and their destruction *)

Lemma allocated_lookup_new sp m :
  objects (allocated sp m) !! fresh (dom (objects m)) = Some sp.
Proof. cbn. apply lookup_insert_eq. Qed.

Lemma allocated_lookup_old sp m r x :
  objects m !! r = Some x -> objects (allocated sp m) !! r = Some x.
Proof.
  intros H. cbn. rewrite lookup_insert_ne; [exact H|].
  intros E. symmetry in E. revert E. eapply live_not_fresh, H.
Qed.

Lemma StringParameters_sub_done m p P k :
  objects m !! p = Some P ->
  k <= wrap32 (num_param P - offset P) ->
  StringParameters_sub p k m =
    Done (fresh (dom (objects m))) (allocated (child_view p P k) m).
Proof.
  intros Hlive Hle. unfold StringParameters_sub, bind.
  rewrite (get_object_live _ _ _ Hlive), (GetDataLeft_live _ _ _ Hlive).
  unfold assert. apply Z.leb_le in Hle. rewrite Hle. reflexivity.
Qed.

Lemma StringParameters_sub_failed m p P k :
  objects m !! p = Some P ->
  wrap32 (num_param P - offset P) < k ->
  StringParameters_sub p k m = AssertionFailed m.
Proof.
  intros Hlive Hlt. unfold StringParameters_sub, bind.
  rewrite (get_object_live _ _ _ Hlive), (GetDataLeft_live _ _ _ Hlive).
  unfold assert. apply Z.leb_gt in Hlt. rewrite Hlt. reflexivity.
Qed.

Lemma StringParameters_dtor_child m c C p P :
  objects m !! c = Some C ->
  parent C = Some p ->
  objects m !! p = Some P ->
  StringParameters_dtor c m =
    Done tt (with_objects
               (delete c (<[p := set_offset (wrap32 (offset P + num_param C)) P]>
                            (objects m))) m).
Proof.
  intros Hc Hp HP. unfold StringParameters_dtor, bind.
  rewrite (get_object_live _ _ _ Hc), Hp, (get_object_live _ _ _ HP).
  reflexivity.
Qed.

Lemma StringParameters_dtor_root m c C :
  objects m !! c = Some C ->
  parent C = None ->
  StringParameters_dtor c m = Done tt (with_objects (delete c (objects m)) m).
Proof.
  intros Hc Hp. unfold StringParameters_dtor, bind.
  rewrite (get_object_live _ _ _ Hc), Hp. reflexivity.
Qed.

(** The cursor of the parent after a child of length [size] has died. *)
Lemma cursor_after_child_dtor m c C p P :
  objects m !! c = Some C ->
  parent C = Some p ->
  objects m !! p = Some P ->
  p <> c ->
  exists m',
    StringParameters_dtor c m = Done tt m' /\
    objects m' !! p = Some (set_offset (wrap32 (offset P + num_param C)) P) /\
    objects m' !! c = None.
Proof.
  intros Hc Hp HP Hne. eexists. split; [|split].
  - apply (StringParameters_dtor_child _ _ _ _ _ Hc Hp HP).
  - cbn. rewrite lookup_delete_ne by congruence. apply lookup_insert_eq.
  - cbn. apply lookup_delete_eq.
Qed.

(** * The claims *)

(** C1. For a live parent list and a size [k] that does not exceed what
    [GetDataLeft] reports, the sub-view constructor returns a child and leaves
    the parent instance, so its cursor, as it was; when the child has then
    read [j <= k] values (by any mix of [GetInt64] and [GetInt32]) and is
    destroyed, the parent's cursor is its old value plus [k] in [uint]
    arithmetic, which is exactly [offset + k] whenever the parent's cursor was
    within its length; [j] plays no part. *)
Theorem sub_view_destruction_advances_by_size
  (m : Memory) (p : objref) (P : StringParameters) (k : Z) (calls : list reader) :
  objects m !! p = Some P ->
  is_uint (offset P) ->
  is_uint (num_param P) ->
  0 <= k <= wrap32 (num_param P - offset P) ->
  Z.of_nat (length calls) <= k ->
  mapped (slots m) (data P + offset P) (Z.of_nat (length calls)) ->
  exists c m1 vals m2 m3,
    StringParameters_sub p k m = Done c m1 /\
    objects m1 !! p = Some P /\
    read_all calls c m1 = Done vals m2 /\
    cursor m2 c = Some (Z.of_nat (length calls)) /\
    cursor m2 p = Some (offset P) /\
    StringParameters_dtor c m2 = Done tt m3 /\
    cursor m3 p = Some (wrap32 (offset P + k)) /\
    (offset P <= num_param P -> cursor m3 p = Some (offset P + k)).
Proof.
  intros Hlive HoP HnP Hk Hj Hmap.
  pose proof (wrap32_range (num_param P - offset P)) as Hleft.
  set (c := fresh (dom (objects m))).
  set (C := child_view p P k).
  set (m1 := allocated C m).
  assert (Hpc : p <> c) by (eapply live_not_fresh; exact Hlive).
  assert (Hc1 : objects m1 !! c = Some C) by apply allocated_lookup_new.
  assert (Hp1 : objects m1 !! p = Some P)
    by (apply allocated_lookup_old; exact Hlive).
  destruct (read_all_done calls m1 c C Hc1) as (vals & Hrun & _ & _).
  { cbn. lia. }
  { cbn. lia. }
  { cbn. lia. }
  { cbn. rewrite Z.add_0_r. exact Hmap. }
  cbn [offset C child_view] in Hrun. rewrite Z.add_0_l in Hrun.
  set (j := Z.of_nat (length calls)) in *.
  set (m2 := moved_to j c C m1) in *.
  assert (Hc2 : objects m2 !! c = Some (set_offset j C)) by apply moved_to_lookup.
  assert (Hp2 : objects m2 !! p = Some P).
  { unfold m2. rewrite moved_to_lookup_ne by exact Hpc. exact Hp1. }
  destruct (cursor_after_child_dtor m2 c (set_offset j C) p P Hc2 eq_refl Hp2 Hpc)
    as (m3 & Hd & Hp3 & _).
  cbn [num_param set_offset C child_view] in Hp3, Hd.
  exists c, m1, vals, m2, m3. repeat split.
  - apply StringParameters_sub_done; [exact Hlive|lia].
  - exact Hp1.
  - exact Hrun.
  - unfold cursor. rewrite Hc2. reflexivity.
  - unfold cursor. rewrite Hp2. reflexivity.
  - exact Hd.
  - unfold cursor. rewrite Hp3. reflexivity.
  - intros Hwf. unfold cursor. rewrite Hp3. cbn.
    unfold is_uint in *.
    rewrite (wrap32_small (num_param P - offset P)) in Hk by lia.
    rewrite wrap32_small by lia. reflexivity.
Qed.

(** C2 as stated fails. On the three-slot root list a child of two slots
    that has read one value dies with its own cursor at 1, and the parent's
    cursor goes from 0 to 2: the amount added is the child's length, not the
    child's cursor. *)
Lemma dtor_does_not_add_child_cursor :
  returned (demo_child_reads_one_of_two demo_memory) = Some (0, 1, 2) /\
  2 - 0 <> 1.
Proof. split; [vm_compute; reflexivity | lia]. Qed.

(** C2, amended. When a child view dies, the amount added to its parent's
    cursor is the child's length [num_param] (the size asked for at its
    construction), in [uint] arithmetic, whatever the child's own cursor. *)
Theorem dtor_adds_child_length
  (m : Memory) (c p : objref) (C P : StringParameters) :
  objects m !! c = Some C ->
  parent C = Some p ->
  objects m !! p = Some P ->
  p <> c ->
  exists m',
    StringParameters_dtor c m = Done tt m' /\
    cursor m' p = Some (wrap32 (offset P + num_param C)) /\
    forall j, StringParameters_dtor c (moved_to j c C m) =
              Done tt m'.
Proof.
  intros Hc Hp HP Hne.
  destruct (cursor_after_child_dtor m c C p P Hc Hp HP Hne) as (m' & Hd & Hp' & _).
  exists m'. split; [exact Hd|]. split.
  - unfold cursor. rewrite Hp'. reflexivity.
  - intros j.
    rewrite (StringParameters_dtor_child (moved_to j c C m) c (set_offset j C) p P).
    + rewrite (StringParameters_dtor_child _ _ _ _ _ Hc Hp HP) in Hd.
      injection Hd as <-. cbn. unfold with_objects. cbn. f_equal.
      rewrite (insert_insert_ne _ p c) by congruence.
      rewrite delete_insert_eq. reflexivity.
    + apply moved_to_lookup.
    + exact Hp.
    + rewrite moved_to_lookup_ne by exact Hne. exact HP.
Qed.

(** C3. When [size] is greater than what [GetDataLeft] reports for the
    parent, the sub-view constructor fails its assertion, and the memory at
    that point is the memory it was called in: the parent's cursor, length,
    slots and tags are as before, and no instance was added. *)
Theorem sub_view_too_large_fails
  (m : Memory) (p : objref) (left k : Z) :
  GetDataLeft p m = Done left m ->
  left < k ->
  StringParameters_sub p k m = AssertionFailed m.
Proof.
  intros Hleft Hlt.
  destruct (objects m !! p) as [P|] eqn:Hlive.
  - rewrite (GetDataLeft_live _ _ _ Hlive) in Hleft. injection Hleft as <-.
    apply (StringParameters_sub_failed _ _ _ _ Hlive Hlt).
  - unfold GetDataLeft, bind, get_object in Hleft. rewrite Hlive in Hleft.
    discriminate.
Qed.

(** The two constructors of a root list agree when the array length fits
    in a [uint]. *)
Lemma StringParameters_array_as_ctor d n :
  is_uint n -> StringParameters_array d n = StringParameters_ctor d n None.
Proof.
  intros Hn. unfold StringParameters_array, StringParameters_ctor.
  rewrite wrap32_small by exact Hn. reflexivity.
Qed.

Lemma root_constructor_done d n make m :
  is_uint n ->
  root_constructor d n make ->
  exists t,
    make m = Done (fresh (dom (objects m)))
               (allocated {| parent := None; data := d; type := t; offset := 0;
                             num_param := n; next_type := 0 |} m).
Proof.
  intros Hn [[t ->] | ->].
  - exists t. reflexivity.
  - exists None. rewrite StringParameters_array_as_ctor by exact Hn. reflexivity.
Qed.

(** C4. On a root list constructed over [n] slots, [n] calls of [GetInt32]
    in a row all return, and they return the slots in order, narrowed to 32
    bits; the cursor is then [n] and one more call of [GetInt32] fails its
    assertion. *)
Theorem reads_succeed_up_to_length
  (m : Memory) (d n : Z) (make : M objref) :
  is_uint n ->
  mapped (slots m) d n ->
  root_constructor d n make ->
  exists r m0 vals m1,
    make m = Done r m0 /\
    read_all (replicate (Z.to_nat n) Int32) r m0 = Done vals m1 /\
    length vals = Z.to_nat n /\
    (forall i : nat, (i < Z.to_nat n)%nat ->
       vals !! i = (fun v => to_int32 (to_int64 v)) <$> slots m !! (d + Z.of_nat i)) /\
    cursor m1 r = Some n /\
    GetInt32 r m1 = AssertionFailed m1.
Proof.
  intros Hn Hmap Hmake.
  destruct (root_constructor_done d n make m Hn Hmake) as (t & Hdone).
  set (r := fresh (dom (objects m))) in *.
  set (R := {| parent := None; data := d; type := t; offset := 0;
               num_param := n; next_type := 0 |}) in *.
  set (m0 := allocated R m) in *.
  assert (Hr0 : objects m0 !! r = Some R) by apply allocated_lookup_new.
  assert (Hlen : Z.of_nat (length (replicate (Z.to_nat n) Int32)) = n).
  { rewrite length_replicate. unfold is_uint in Hn. lia. }
  destruct (read_all_done (replicate (Z.to_nat n) Int32) m0 r R Hr0)
    as (vals & Hrun & Hvlen & Hvals).
  { cbn. lia. }
  { rewrite Hlen. cbn. lia. }
  { cbn. unfold is_uint in Hn. lia. }
  { rewrite Hlen. cbn. rewrite Z.add_0_r. exact Hmap. }
  rewrite Hlen in Hrun. cbn [offset R] in Hrun. rewrite Z.add_0_l in Hrun.
  exists r, m0, vals, (moved_to n r R m0). repeat split.
  - exact Hdone.
  - exact Hrun.
  - rewrite Hvlen. apply length_replicate.
  - intros i Hi. rewrite (Hvals i Int32).
    + cbn. rewrite Z.add_0_r. reflexivity.
    + apply lookup_replicate_2. exact Hi.
  - unfold cursor. rewrite moved_to_lookup. reflexivity.
  - change (GetInt32 r (moved_to n r R m0)) with (read_one Int32 r (moved_to n r R m0)).
    apply (read_one_past_end _ r (set_offset n R)).
    + apply moved_to_lookup.
    + cbn. lia.
Qed.

(** C5. [GetDataLeft] returns the length minus the cursor, in [uint]
    arithmetic (exactly [num_param - offset] when the cursor is within the
    length), and the memory after the call is the memory before it. On a root
    list constructed over [n] slots, after [k] reads that all returned, it
    returns [n - k]. *)
Theorem GetDataLeft_counts_unread_slots :
  (forall (m : Memory) (r : objref) (sp : StringParameters),
     objects m !! r = Some sp ->
     GetDataLeft r m = Done (wrap32 (num_param sp - offset sp)) m /\
     (is_uint (num_param sp) -> 0 <= offset sp <= num_param sp ->
      GetDataLeft r m = Done (num_param sp - offset sp) m)) /\
  (forall (m : Memory) (d n : Z) (make : M objref) (r : objref) (m0 : Memory)
          (calls : list reader) (vals : list Z) (m1 : Memory),
     is_uint n ->
     root_constructor d n make ->
     make m = Done r m0 ->
     read_all calls r m0 = Done vals m1 ->
     GetDataLeft r m1 = Done (n - Z.of_nat (length calls)) m1).
Proof.
  split.
  - intros m r sp Hlive. split.
    + apply GetDataLeft_live. exact Hlive.
    + intros Hn Ho. rewrite (GetDataLeft_live _ _ _ Hlive).
      unfold is_uint in Hn. rewrite wrap32_small by lia. reflexivity.
  - intros m d n make r m0 calls vals m1 Hn Hmake Hdone Hrun.
    destruct (root_constructor_done d n make m Hn Hmake) as (t & Hdone').
    rewrite Hdone' in Hdone. injection Hdone as <- <-.
    set (r := fresh (dom (objects m))) in *.
    set (R := {| parent := None; data := d; type := t; offset := 0;
                 num_param := n; next_type := 0 |}) in *.
    assert (Hr0 : objects (allocated R m) !! r = Some R)
      by apply allocated_lookup_new.
    unfold is_uint in Hn.
    destruct (read_all_inv calls _ r R vals m1 Hr0) as (Hle & -> & _).
    { cbn. lia. }
    { cbn. lia. }
    { exact Hrun. }
    cbn [offset num_param R] in Hle.
    rewrite (GetDataLeft_live _ r (set_offset (0 + Z.of_nat (length calls)) R))
      by apply moved_to_lookup.
    cbn [offset num_param set_offset R].
    rewrite wrap32_small by lia. reflexivity.
Qed.

Lemma GetTypeAtOffset_live m r sp off :
  objects m !! r = Some sp ->
  GetTypeAtOffset r off m =
    if off <? num_param sp
    then match type sp with
         | Some t => load_tag (t + off) m
         | None => AssertionFailed m
         end
    else AssertionFailed m.
Proof.
  intros Hlive. unfold GetTypeAtOffset, bind.
  rewrite (get_object_live _ _ _ Hlive). unfold assert at 1.
  destruct (off <? num_param sp); [|reflexivity].
  rewrite (HasTypeInformation_live _ _ _ Hlive).
  destruct (type sp); reflexivity.
Qed.

Lemma load_tag_not_failed a m m' : load_tag a m <> AssertionFailed m'.
Proof. unfold load_tag. destruct (tags m !! a); discriminate. Qed.

(** C7. A list constructed from a fixed-size array reports no type
    information, and [GetTypeAtOffset] fails its assertion on it at every
    offset. For every live list, [GetTypeAtOffset] fails an assertion exactly
    when the list has no type information or the offset is not below the
    length; otherwise it returns the tag stored at that offset. *)
Theorem GetTypeAtOffset_fails_without_type_or_out_of_range :
  (forall (m : Memory) (d n : Z) (r : objref) (m0 : Memory),
     StringParameters_array d n m = Done r m0 ->
     HasTypeInformation r m0 = Done false m0 /\
     forall off, GetTypeAtOffset r off m0 = AssertionFailed m0) /\
  (forall (m : Memory) (r : objref) (sp : StringParameters) (off : Z),
     objects m !! r = Some sp ->
     ((exists m', GetTypeAtOffset r off m = AssertionFailed m') <->
      (type sp = None \/ num_param sp <= off)) /\
     (forall t v, type sp = Some t -> off < num_param sp ->
        tags m !! (t + off) = Some v ->
        GetTypeAtOffset r off m = Done v m)).
Proof.
  split.
  - intros m d n r m0 Hmake.
    set (R := {| parent := None; data := d; type := None; offset := 0;
                 num_param := wrap32 n; next_type := 0 |}).
    change (Done (fresh (dom (objects m))) (allocated R m) = Done r m0) in Hmake.
    injection Hmake as <- <-.
    assert (Hr : objects (allocated R m) !! fresh (dom (objects m)) = Some R)
      by apply allocated_lookup_new.
    split.
    + rewrite (HasTypeInformation_live _ _ _ Hr). reflexivity.
    + intros off. rewrite (GetTypeAtOffset_live _ _ _ off Hr). cbn [type R].
      destruct (off <? num_param R); reflexivity.
  - intros m r sp off Hlive. rewrite (GetTypeAtOffset_live _ _ _ off Hlive).
    split; [split|].
    + intros [m' Hfail].
      destruct (off <? num_param sp) eqn:Hlt.
      * destruct (type sp) as [t|]; [|left; reflexivity].
        exfalso. exact (load_tag_not_failed _ _ _ Hfail).
      * right. apply Z.ltb_ge. exact Hlt.
    + intros [Hnone | Hge].
      * exists m. rewrite Hnone. destruct (off <? num_param sp); reflexivity.
      * exists m. apply Z.ltb_ge in Hge. rewrite Hge. reflexivity.
    + intros t v Ht Hlt Hv. apply Z.ltb_lt in Hlt. rewrite Hlt, Ht.
      unfold load_tag. rewrite Hv. reflexivity.
Qed.

Lemma GetParam_live m r sp n :
  objects m !! r = Some sp ->
  GetParam r n m =
    if n <? num_param sp then load_slot (data sp + n) m else AssertionFailed m.
Proof.
  intros Hlive. unfold GetParam, bind.
  rewrite (get_object_live _ _ _ Hlive). unfold assert.
  destruct (n <? num_param sp); reflexivity.
Qed.

(** C9. For [n] below the length of a live list whose slot [n] lies in its
    array, [SetParam n v] returns, a following [GetParam n] returns [v], the
    instances (so every cursor and length) and the tags are as before, no
    other address of the slot heap has changed, and [GetParam] at every other
    index of the list gives what it gave before. *)
Theorem SetParam_then_GetParam
  (m : Memory) (r : objref) (sp : StringParameters) (n v : Z) :
  objects m !! r = Some sp ->
  n < num_param sp ->
  is_Some (slots m !! (data sp + n)) ->
  exists m',
    SetParam r n v m = Done tt m' /\
    GetParam r n m' = Done v m' /\
    objects m' = objects m /\
    tags m' = tags m /\
    (forall a, a <> data sp + n -> slots m' !! a = slots m !! a) /\
    (forall k, k <> n -> returned (GetParam r k m') = returned (GetParam r k m)).
Proof.
  intros Hlive Hlt [old Hold].
  set (m' := with_slots (<[data sp + n := v]> (slots m)) m).
  assert (Hlive' : objects m' !! r = Some sp) by exact Hlive.
  assert (Hnb : (n <? num_param sp) = true) by (apply Z.ltb_lt; exact Hlt).
  exists m'. repeat split.
  - unfold SetParam, bind. rewrite (get_object_live _ _ _ Hlive).
    unfold assert. rewrite Hnb. unfold store_slot. rewrite Hold. reflexivity.
  - rewrite (GetParam_live _ _ _ n Hlive'), Hnb. unfold load_slot. cbn.
    rewrite lookup_insert_eq. reflexivity.
  - intros a Ha. cbn. apply lookup_insert_ne. congruence.
  - intros k Hk.
    rewrite (GetParam_live _ _ _ k Hlive'), (GetParam_live _ _ _ k Hlive).
    destruct (k <? num_param sp); [|reflexivity].
    unfold load_slot. cbn. rewrite lookup_insert_ne by lia.
    destruct (slots m !! (data sp + k)); reflexivity.
Qed.

Lemma wrap32_shift_changes o k :
  is_uint o -> 0 < k < 2 ^ 32 -> wrap32 (o + k) <> o.
Proof.
  unfold is_uint, wrap32, wrap. intros Ho Hk.
  destruct (Z_lt_dec (o + k) (2 ^ 32)) as [Hs | Hl].
  - rewrite Z.mod_small by lia. lia.
  - replace (o + k) with ((o + k - 2 ^ 32) + 1 * 2 ^ 32) by lia.
    rewrite Z_mod_plus_full, Z.mod_small by lia. lia.
Qed.

(** C10. [GetRemainingParameters] on a live list returns a new root
    instance: no parent, first slot at the list's cursor, cursor 0, length
    what [GetDataLeft] reports for the list, and type information present
    exactly when the list has it, starting at the cursor too. The list itself
    is as before, and destroying the returned instance gives back the memory
    of before the call, so the list's cursor has not moved; whereas a
    sub-view of size [k > 0] of the same list changes that cursor when it is
    destroyed. *)
Theorem GetRemainingParameters_is_detached
  (m : Memory) (r : objref) (sp : StringParameters) :
  objects m !! r = Some sp ->
  exists v m1,
    GetRemainingParameters r m = Done v m1 /\
    objects m1 !! r = Some sp /\
    objects m1 !! v =
      Some {| parent := None;
              data := data sp + offset sp;
              type := match type sp with
                      | None => None
                      | Some t => Some (t + offset sp)
                      end;
              offset := 0;
              num_param := wrap32 (num_param sp - offset sp);
              next_type := 0 |} /\
    returned (GetDataLeft v m1) = returned (GetDataLeft r m) /\
    returned (HasTypeInformation v m1) = returned (HasTypeInformation r m) /\
    StringParameters_dtor v m1 = Done tt m /\
    (forall k, is_uint (offset sp) ->
       0 < k <= wrap32 (num_param sp - offset sp) ->
       exists c m2 m3,
         StringParameters_sub r k m = Done c m2 /\
         StringParameters_dtor c m2 = Done tt m3 /\
         cursor m3 r = Some (wrap32 (offset sp + k)) /\
         cursor m3 r <> cursor m r).
Proof.
  intros Hlive.
  set (v := fresh (dom (objects m))).
  set (V := {| parent := None;
               data := data sp + offset sp;
               type := match type sp with
                       | None => None
                       | Some t => Some (t + offset sp)
                       end;
               offset := 0;
               num_param := wrap32 (num_param sp - offset sp);
               next_type := 0 |}).
  assert (Hv : objects (allocated V m) !! v = Some V)
    by apply allocated_lookup_new.
  pose proof (wrap32_range (num_param sp - offset sp)) as Hleft.
  exists v, (allocated V m). split; [|split; [|split; [|split; [|split; [|split]]]]].
  - unfold GetRemainingParameters, bind.
    rewrite (get_object_live _ _ _ Hlive), (GetDataLeft_live _ _ _ Hlive).
    reflexivity.
  - apply allocated_lookup_old. exact Hlive.
  - exact Hv.
  - rewrite (GetDataLeft_live _ _ _ Hv), (GetDataLeft_live _ _ _ Hlive).
    cbn. rewrite Z.sub_0_r, wrap32_small by exact Hleft. reflexivity.
  - rewrite (HasTypeInformation_live _ _ _ Hv), (HasTypeInformation_live _ _ _ Hlive).
    cbn. destruct (type sp); reflexivity.
  - rewrite (StringParameters_dtor_root _ _ _ Hv eq_refl). cbn.
    unfold with_objects. cbn.
    rewrite delete_insert_id by apply fresh_object_unused.
    destruct m; reflexivity.
  - intros k Ho Hk.
    set (C := child_view r sp k).
    assert (Hrv : r <> v) by (eapply live_not_fresh; exact Hlive).
    destruct (cursor_after_child_dtor (allocated C m) v C r sp)
      as (m3 & Hd & Hr3 & _).
    { apply allocated_lookup_new. }
    { reflexivity. }
    { apply allocated_lookup_old. exact Hlive. }
    { exact Hrv. }
    exists v, (allocated C m), m3. split; [|split; [|split]].
    + apply StringParameters_sub_done; [exact Hlive | lia].
    + exact Hd.
    + unfold cursor. rewrite Hr3. reflexivity.
    + unfold cursor. rewrite Hr3, Hlive. cbn. intros [= E].
      revert E. apply wrap32_shift_changes; [exact Ho | lia].
Qed.

(** * The output builder *)

Module StringBuilderFacts.
Import StringBuilder.

Lemma append_each_app str : forall s, append_each str s = s ++ str.
Proof.
  induction str as [|c str IH]; intros s; cbn.
  - symmetry. apply app_nil_r.
  - unfold append_each in IH. rewrite IH. unfold append_char.
    rewrite <- app_assoc. reflexivity.
Qed.

End StringBuilderFacts.

(** C6. [RemoveElementsFromBack amount] never throws: it keeps a prefix of
    the string and removes exactly the last [min amount size] characters.
    After appending "abc" to an empty string, removing 2 leaves "a", and
    removing 100 from the three characters "abc" leaves the empty string. *)
Theorem RemoveElementsFromBack_removes_min :
  (forall (s : StringBuilder.buffer) (amount : Z),
     is_size_t amount ->
     is_size_t (StringBuilder.size s) ->
     exists kept removed,
       StringBuilder.RemoveElementsFromBack amount s = Some kept /\
       s = kept ++ removed /\
       StringBuilder.size removed = Z.min amount (StringBuilder.size s) /\
       StringBuilder.CurrentIndex kept =
         StringBuilder.size s - Z.min amount (StringBuilder.size s)) /\
  StringBuilder.RemoveElementsFromBack 2
    (StringBuilder.append_view (list_ascii_of_string "abc") []) =
    Some (list_ascii_of_string "a") /\
  StringBuilder.RemoveElementsFromBack 100 (list_ascii_of_string "abc") = Some [].
Proof.
  split; [|split; reflexivity].
  intros s amount Ha Hs.
  unfold StringBuilder.RemoveElementsFromBack, StringBuilder.erase,
    StringBuilder.CurrentIndex, StringBuilder.size, is_size_t in *.
  set (len := Z.of_nat (length s)) in *.
  set (keep := len - Z.min amount len).
  assert (Hkeep : 0 <= keep <= len) by (unfold keep; lia).
  rewrite (wrap64_small keep) by lia.
  destruct (Z.leb_spec keep len) as [_|]; [|lia].
  exists (take (Z.to_nat keep) s), (drop (Z.to_nat keep) s).
  split; [reflexivity|]. split; [|split].
  - symmetry. apply take_drop.
  - rewrite length_drop. unfold keep, len in *. lia.
  - rewrite length_take. unfold keep, len in *. lia.
Qed.

(** C8. Appending a text to the builder one character at a time leaves the
    same string as appending it in one call, from every initial string. *)
Theorem append_each_char_is_append_view
  (str : list ascii) (s : StringBuilder.buffer) :
  StringBuilder.append_each str s = StringBuilder.append_view str s.
Proof.
  unfold StringBuilder.append_view. apply StringBuilderFacts.append_each_app.
Qed.

(** * The claims on the demo memory *)

Lemma demo_root_constructed :
  StringParameters_ctor 100 3 (Some 200) demo_memory =
    Done demo_root demo_root_memory.
Proof. reflexivity. Defined.

Lemma demo_root_live : objects demo_root_memory !! demo_root = Some demo_root_list.
Proof. vm_compute. reflexivity. Defined.

Lemma sub_view_destruction_advances_by_size_witness :
  objects demo_root_memory !! demo_root = Some demo_root_list /\
  mapped (slots demo_root_memory) (100 + 0) 1 /\
  exists c m1 vals m2 m3,
    StringParameters_sub demo_root 2 demo_root_memory = Done c m1 /\
    read_all [Int64] c m1 = Done vals m2 /\
    cursor m2 c = Some 1 /\
    StringParameters_dtor c m2 = Done tt m3 /\
    cursor m3 demo_root = Some (0 + 2).
Proof.
  assert (Hmap : mapped (slots demo_root_memory) (100 + 0) 1)
    by (apply mappedb_mapped; vm_compute; reflexivity).
  split; [exact demo_root_live|]. split; [exact Hmap|].
  destruct (sub_view_destruction_advances_by_size
              demo_root_memory demo_root demo_root_list 2 [Int64])
    as (c & m1 & vals & m2 & m3 & H1 & _ & H3 & H4 & _ & H6 & _ & H8).
  - exact demo_root_live.
  - unfold is_uint; cbn; lia.
  - unfold is_uint; cbn; lia.
  - vm_compute. split; discriminate.
  - cbn. lia.
  - exact Hmap.
  - exists c, m1, vals, m2, m3. repeat split; try assumption.
    apply H8. cbn. lia.
Defined.

Lemma dtor_adds_child_length_witness :
  objects demo_child_memory !! demo_child = Some demo_child_view /\
  exists m',
    StringParameters_dtor demo_child demo_child_memory = Done tt m' /\
    cursor m' demo_root = Some (wrap32 (0 + 2)).
Proof.
  assert (Hc : objects demo_child_memory !! demo_child = Some demo_child_view)
    by (vm_compute; reflexivity).
  split; [exact Hc|].
  destruct (dtor_adds_child_length demo_child_memory demo_child demo_root
              demo_child_view demo_root_list)
    as (m' & Hd & Hcur & _).
  - exact Hc.
  - reflexivity.
  - vm_compute. reflexivity.
  - vm_compute. discriminate.
  - exists m'. split; assumption.
Defined.

Lemma sub_view_too_large_fails_witness :
  GetDataLeft demo_root demo_root_memory = Done 3 demo_root_memory /\
  StringParameters_sub demo_root 4 demo_root_memory =
    AssertionFailed demo_root_memory.
Proof.
  assert (H : GetDataLeft demo_root demo_root_memory = Done 3 demo_root_memory)
    by (vm_compute; reflexivity).
  split; [exact H|].
  apply (sub_view_too_large_fails demo_root_memory demo_root 3 4 H).
  reflexivity.
Defined.

Lemma reads_succeed_up_to_length_witness :
  mapped (slots demo_memory) 100 3 /\
  exists r m0 vals m1,
    StringParameters_ctor 100 3 (Some 200) demo_memory = Done r m0 /\
    read_all [Int32; Int32; Int32] r m0 = Done vals m1 /\
    cursor m1 r = Some 3 /\
    GetInt32 r m1 = AssertionFailed m1.
Proof.
  assert (Hmap : mapped (slots demo_memory) 100 3)
    by (apply mappedb_mapped; vm_compute; reflexivity).
  split; [exact Hmap|].
  destruct (reads_succeed_up_to_length demo_memory 100 3
              (StringParameters_ctor 100 3 (Some 200)))
    as (r & m0 & vals & m1 & H1 & H2 & _ & _ & H5 & H6).
  - unfold is_uint; lia.
  - exact Hmap.
  - left. exists (Some 200). reflexivity.
  - exists r, m0, vals, m1. repeat split; assumption.
Defined.

Lemma GetDataLeft_counts_unread_slots_witness :
  read_all [Int32; Int64] demo_root demo_root_memory =
    Done [5; 7] (moved_to 2 demo_root demo_root_list demo_root_memory) /\
  GetDataLeft demo_root (moved_to 2 demo_root demo_root_list demo_root_memory) =
    Done (3 - 2) (moved_to 2 demo_root demo_root_list demo_root_memory) /\
  GetDataLeft demo_root demo_root_memory = Done (3 - 0) demo_root_memory.
Proof.
  assert (Hrun : read_all [Int32; Int64] demo_root demo_root_memory =
                 Done [5; 7] (moved_to 2 demo_root demo_root_list demo_root_memory))
    by (vm_compute; reflexivity).
  split; [exact Hrun|]. split.
  - apply (proj2 GetDataLeft_counts_unread_slots demo_memory 100 3
             (StringParameters_ctor 100 3 (Some 200)) demo_root demo_root_memory
             [Int32; Int64] [5; 7]).
    + unfold is_uint; lia.
    + left. exists (Some 200). reflexivity.
    + exact demo_root_constructed.
    + exact Hrun.
  - apply (proj1 GetDataLeft_counts_unread_slots demo_root_memory demo_root
             demo_root_list demo_root_live).
    + unfold is_uint; cbn; lia.
    + cbn; lia.
Defined.

Lemma RemoveElementsFromBack_removes_min_witness :
  exists kept removed,
    StringBuilder.RemoveElementsFromBack 2 (list_ascii_of_string "abc") = Some kept /\
    list_ascii_of_string "abc" = kept ++ removed /\
    StringBuilder.size removed = Z.min 2 3.
Proof.
  destruct (proj1 RemoveElementsFromBack_removes_min (list_ascii_of_string "abc") 2)
    as (kept & removed & H1 & H2 & H3 & _).
  - unfold is_size_t; lia.
  - vm_compute. split; [discriminate | reflexivity].
  - exists kept, removed. repeat split; assumption.
Defined.

Lemma GetTypeAtOffset_fails_without_type_or_out_of_range_witness :
  GetTypeAtOffset demo_root 1 demo_root_memory = Done 2 demo_root_memory /\
  exists m', GetTypeAtOffset demo_root 3 demo_root_memory = AssertionFailed m'.
Proof.
  destruct (proj2 GetTypeAtOffset_fails_without_type_or_out_of_range
              demo_root_memory demo_root demo_root_list 1 demo_root_live)
    as [_ Hok].
  destruct (proj2 GetTypeAtOffset_fails_without_type_or_out_of_range
              demo_root_memory demo_root demo_root_list 3 demo_root_live)
    as [Hiff _].
  split.
  - apply (Hok 200); [reflexivity | reflexivity | vm_compute; reflexivity].
  - apply Hiff. right. cbn. lia.
Defined.

Lemma SetParam_then_GetParam_witness :
  is_Some (slots demo_root_memory !! (100 + 1)) /\
  exists m',
    SetParam demo_root 1 42 demo_root_memory = Done tt m' /\
    GetParam demo_root 1 m' = Done 42 m' /\
    returned (GetParam demo_root 2 m') = Some 2.
Proof.
  assert (Hs : is_Some (slots demo_root_memory !! (100 + 1)))
    by (exists 7; vm_compute; reflexivity).
  split; [exact Hs|].
  destruct (SetParam_then_GetParam demo_root_memory demo_root demo_root_list 1 42
              demo_root_live)
    as (m' & H1 & H2 & _ & _ & _ & H6).
  - reflexivity.
  - exact Hs.
  - exists m'. repeat split; try assumption.
    rewrite H6 by discriminate. vm_compute. reflexivity.
Defined.

Lemma GetRemainingParameters_is_detached_witness :
  exists v m1,
    GetRemainingParameters demo_root demo_root_memory = Done v m1 /\
    StringParameters_dtor v m1 = Done tt demo_root_memory.
Proof.
  destruct (GetRemainingParameters_is_detached demo_root_memory demo_root
              demo_root_list demo_root_live)
    as (v & m1 & H1 & _ & _ & _ & _ & H6 & _).
  exists v, m1. split; assumption.
Defined.

(** * Further properties of the parameter list *)

Lemma GetPointerToOffset_live m r sp off :
  objects m !! r = Some sp ->
  GetPointerToOffset r off m =
    if off <? num_param sp then Done (data sp + off) m else AssertionFailed m.
Proof.
  intros Hlive. unfold GetPointerToOffset, bind.
  rewrite (get_object_live _ _ _ Hlive). unfold assert.
  destruct (off <? num_param sp); reflexivity.
Qed.

Lemma SetParam_live m r sp n v :
  objects m !! r = Some sp ->
  SetParam r n v m =
    if n <? num_param sp then store_slot (data sp + n) v m else AssertionFailed m.
Proof.
  intros Hlive. unfold SetParam, bind.
  rewrite (get_object_live _ _ _ Hlive). unfold assert.
  destruct (n <? num_param sp); reflexivity.
Qed.

Lemma wf_list_left sp :
  wf_list sp -> wrap32 (num_param sp - offset sp) = num_param sp - offset sp.
Proof. intros [Ho Hn]. apply wrap32_small. lia. Qed.

(** Two live lists whose windows overlap: index [i] of the one at [a] and
    index [j] of the one at [b] are the same slot and the same tag. *)
Lemma overlapping_windows m a A b B i j :
  objects m !! a = Some A ->
  objects m !! b = Some B ->
  i < num_param A ->
  j < num_param B ->
  data A + i = data B + j ->
  type A = (fun t => t + (j - i)) <$> type B ->
  GetPointerToOffset a i m = GetPointerToOffset b j m /\
  GetParam a i m = GetParam b j m /\
  (forall v, SetParam a i v m = SetParam b j v m) /\
  GetTypeAtOffset a i m = GetTypeAtOffset b j m /\
  HasTypeInformation a m = HasTypeInformation b m.
Proof.
  intros HA HB Hi Hj Hd Ht.
  apply Z.ltb_lt in Hi, Hj.
  rewrite (GetPointerToOffset_live _ _ _ i HA), (GetPointerToOffset_live _ _ _ j HB).
  rewrite (GetParam_live _ _ _ i HA), (GetParam_live _ _ _ j HB).
  rewrite (GetTypeAtOffset_live _ _ _ i HA), (GetTypeAtOffset_live _ _ _ j HB).
  rewrite (HasTypeInformation_live _ _ _ HA), (HasTypeInformation_live _ _ _ HB).
  rewrite Hi, Hj, Hd, Ht. repeat split.
  - intros v. rewrite (SetParam_live _ _ _ i v HA), (SetParam_live _ _ _ j v HB).
    rewrite Hi, Hj, Hd. reflexivity.
  - destruct (type B) as [t|]; cbn; [|reflexivity].
    replace (t + (j - i) + i) with (t + j) by lia. reflexivity.
  - destruct (type B); reflexivity.
Qed.

(** X1. The three indexed accessors share one bound check and one address:
    below the length, [GetPointerToOffset n] returns, without changing the
    memory, the address that [GetParam n] loads from and [SetParam n] stores
    to; at or above the length all three fail their assertion. *)
Theorem GetPointerToOffset_is_the_slot_of_GetParam_and_SetParam
  (m : Memory) (r : objref) (sp : StringParameters) (n : Z) :
  objects m !! r = Some sp ->
  (n < num_param sp ->
   exists a,
     GetPointerToOffset r n m = Done a m /\
     GetParam r n m = load_slot a m /\
     forall v, SetParam r n v m = store_slot a v m) /\
  (num_param sp <= n ->
   GetPointerToOffset r n m = AssertionFailed m /\
   GetParam r n m = AssertionFailed m /\
   forall v, SetParam r n v m = AssertionFailed m).
Proof.
  intros Hlive.
  rewrite (GetPointerToOffset_live _ _ _ n Hlive), (GetParam_live _ _ _ n Hlive).
  split.
  - intros Hlt. apply Z.ltb_lt in Hlt. exists (data sp + n).
    rewrite Hlt. repeat split.
    intros v. rewrite (SetParam_live _ _ _ n v Hlive), Hlt. reflexivity.
  - intros Hge. apply Z.ltb_ge in Hge. rewrite Hge. repeat split.
    intros v. rewrite (SetParam_live _ _ _ n v Hlive), Hge. reflexivity.
Qed.

(** X2. A sub-view of size [k] is a window on its parent: index [i < k] of
    the child is index [offset + i] of the parent, for the slot address, for
    reading and writing the slot and for the type tag, and the child has
    type information exactly when the parent has; at index [k] and above the
    child's accessors fail their assertion, whatever the parent holds there;
    the child reports [k] slots left. *)
Theorem sub_view_is_a_window_on_its_parent
  (m : Memory) (p : objref) (P : StringParameters) (k : Z) :
  objects m !! p = Some P ->
  wf_list P ->
  0 <= k <= num_param P - offset P ->
  exists c m1,
    StringParameters_sub p k m = Done c m1 /\
    GetDataLeft c m1 = Done k m1 /\
    HasTypeInformation c m1 = HasTypeInformation p m1 /\
    (forall i, 0 <= i < k ->
       GetPointerToOffset c i m1 = GetPointerToOffset p (offset P + i) m1 /\
       GetParam c i m1 = GetParam p (offset P + i) m1 /\
       (forall v, SetParam c i v m1 = SetParam p (offset P + i) v m1) /\
       GetTypeAtOffset c i m1 = GetTypeAtOffset p (offset P + i) m1) /\
    (forall i, k <= i ->
       GetParam c i m1 = AssertionFailed m1 /\
       (forall v, SetParam c i v m1 = AssertionFailed m1) /\
       GetTypeAtOffset c i m1 = AssertionFailed m1).
Proof.
  intros Hlive Hwf Hk.
  pose proof (wf_list_left P Hwf) as Hleft. destruct Hwf as [Ho Hn].
  set (C := child_view p P k).
  set (c := fresh (dom (objects m))).
  assert (Hc : objects (allocated C m) !! c = Some C) by apply allocated_lookup_new.
  assert (Hp : objects (allocated C m) !! p = Some P)
    by (apply allocated_lookup_old; exact Hlive).
  exists c, (allocated C m). split; [|split; [|split; [|split]]].
  - apply StringParameters_sub_done; [exact Hlive | lia].
  - rewrite (GetDataLeft_live _ _ _ Hc). cbn.
    rewrite Z.sub_0_r, wrap32_small by lia. reflexivity.
  - rewrite (HasTypeInformation_live _ _ _ Hc), (HasTypeInformation_live _ _ _ Hp).
    cbn. destruct (type P); reflexivity.
  - intros i Hi.
    destruct (overlapping_windows (allocated C m) c C p P i (offset P + i) Hc Hp)
      as (H1 & H2 & H3 & H4 & _).
    + cbn. lia.
    + lia.
    + cbn. lia.
    + cbn. destruct (type P) as [t|]; cbn; [|reflexivity].
      do 2 f_equal. lia.
    + repeat split; assumption.
  - intros i Hi. apply Z.ltb_ge in Hi.
    rewrite (GetParam_live _ _ _ i Hc), (GetTypeAtOffset_live _ _ _ i Hc).
    cbn [num_param C child_view]. rewrite Hi. repeat split.
    intros v. rewrite (SetParam_live _ _ _ i v Hc).
    cbn [num_param C child_view]. rewrite Hi. reflexivity.
Qed.

(** X3. The view returned by [GetRemainingParameters] is a window on the
    unread slots of the list: it reports as many slots left as the list does,
    and its index [i] below that count is index [offset + i] of the list, for
    the slot address, for reading and writing the slot and for the type tag,
    so that a [SetParam] through the view is read back by [GetParam] on the
    list. *)
Theorem GetRemainingParameters_is_a_window_on_the_unread_slots
  (m : Memory) (r : objref) (sp : StringParameters) :
  objects m !! r = Some sp ->
  wf_list sp ->
  exists v m1,
    GetRemainingParameters r m = Done v m1 /\
    returned (GetDataLeft v m1) = returned (GetDataLeft r m) /\
    (forall i, 0 <= i < num_param sp - offset sp ->
       GetPointerToOffset v i m1 = GetPointerToOffset r (offset sp + i) m1 /\
       GetParam v i m1 = GetParam r (offset sp + i) m1 /\
       (forall x, SetParam v i x m1 = SetParam r (offset sp + i) x m1) /\
       GetTypeAtOffset v i m1 = GetTypeAtOffset r (offset sp + i) m1 /\
       (forall x, is_Some (slots m !! (data sp + offset sp + i)) ->
          exists m2, SetParam v i x m1 = Done tt m2 /\
                     GetParam r (offset sp + i) m2 = Done x m2)).
Proof.
  intros Hlive Hwf.
  pose proof (wf_list_left sp Hwf) as Hleft. destruct Hwf as [Ho Hn].
  set (V := {| parent := None;
               data := data sp + offset sp;
               type := match type sp with
                       | None => None
                       | Some t => Some (t + offset sp)
                       end;
               offset := 0;
               num_param := wrap32 (num_param sp - offset sp);
               next_type := 0 |}).
  set (v := fresh (dom (objects m))).
  assert (Hv : objects (allocated V m) !! v = Some V) by apply allocated_lookup_new.
  assert (Hr : objects (allocated V m) !! r = Some sp)
    by (apply allocated_lookup_old; exact Hlive).
  exists v, (allocated V m). split; [|split].
  - unfold GetRemainingParameters, bind.
    rewrite (get_object_live _ _ _ Hlive), (GetDataLeft_live _ _ _ Hlive).
    reflexivity.
  - rewrite (GetDataLeft_live _ _ _ Hv), (GetDataLeft_live _ _ _ Hlive).
    cbn. rewrite Z.sub_0_r, Hleft, wrap32_small by lia. reflexivity.
  - intros i Hi.
    destruct (overlapping_windows (allocated V m) v V r sp i (offset sp + i) Hv Hr)
      as (H1 & H2 & H3 & H4 & _).
    + cbn. lia.
    + lia.
    + cbn. lia.
    + cbn. destruct (type sp) as [t|]; cbn; [|reflexivity].
      do 2 f_equal. lia.
    + split; [exact H1|]. split; [exact H2|]. split; [exact H3|].
      split; [exact H4|].
      intros x [old Hold].
      assert (Hin : (i <? num_param V) = true) by (apply Z.ltb_lt; cbn; lia).
      assert (Hin' : (offset sp + i <? num_param sp) = true)
        by (apply Z.ltb_lt; lia).
      eexists. split.
      * rewrite (SetParam_live _ _ _ i x Hv), Hin. unfold store_slot.
        cbn [data V slots allocated with_objects]. rewrite Hold. reflexivity.
      * rewrite (GetParam_live _ r sp (offset sp + i)) by exact Hr.
        rewrite Hin'. unfold load_slot. cbn.
        replace (data sp + (offset sp + i)) with (data sp + offset sp + i) by lia.
        rewrite lookup_insert_eq. reflexivity.
Qed.

(** A sub-view that is created and at once destroyed leaves the memory as
    it was but for the parent's cursor. *)
Lemma sub_then_dtor m p P k :
  objects m !! p = Some P ->
  k <= wrap32 (num_param P - offset P) ->
  StringParameters_sub p k m =
    Done (fresh (dom (objects m))) (allocated (child_view p P k) m) /\
  StringParameters_dtor (fresh (dom (objects m))) (allocated (child_view p P k) m) =
    Done tt (moved_to (wrap32 (offset P + k)) p P m).
Proof.
  intros Hlive Hk. split.
  - apply StringParameters_sub_done; assumption.
  - rewrite (StringParameters_dtor_child _ _ (child_view p P k) p P).
    + unfold moved_to, allocated, with_objects. cbn. do 2 f_equal.
      rewrite delete_insert_ne
        by (intros E; symmetry in E; revert E; eapply live_not_fresh, Hlive).
      rewrite delete_insert_id by apply fresh_object_unused. reflexivity.
    + apply allocated_lookup_new.
    + reflexivity.
    + apply allocated_lookup_old. exact Hlive.
Qed.

(** Two live children of one parent die one after the other. *)
Lemma two_children_die m c1 C1 c2 C2 p P :
  objects m !! c1 = Some C1 ->
  objects m !! c2 = Some C2 ->
  objects m !! p = Some P ->
  parent C1 = Some p ->
  parent C2 = Some p ->
  c1 <> c2 -> p <> c1 -> p <> c2 ->
  exists m' m'',
    StringParameters_dtor c1 m = Done tt m' /\
    StringParameters_dtor c2 m' = Done tt m'' /\
    cursor m'' p = Some (wrap32 (offset P + num_param C1 + num_param C2)).
Proof.
  intros H1 H2 HP Hp1 Hp2 H12 Hpc1 Hpc2.
  set (P1 := set_offset (wrap32 (offset P + num_param C1)) P).
  set (m' := with_objects (delete c1 (<[p := P1]> (objects m))) m).
  assert (Hd1 : StringParameters_dtor c1 m = Done tt m')
    by apply (StringParameters_dtor_child _ _ _ _ _ H1 Hp1 HP).
  assert (H2' : objects m' !! c2 = Some C2).
  { cbn. rewrite lookup_delete_ne, lookup_insert_ne by congruence. exact H2. }
  assert (HP' : objects m' !! p = Some P1).
  { cbn. rewrite lookup_delete_ne by congruence. apply lookup_insert_eq. }
  destruct (cursor_after_child_dtor m' c2 C2 p P1 H2' Hp2 HP' Hpc2)
    as (m'' & Hd2 & HP'' & _).
  exists m', m''. split; [exact Hd1|]. split; [exact Hd2|].
  unfold cursor. rewrite HP''. cbn. f_equal.
  unfold wrap32, wrap. apply Zplus_mod_idemp_l.
Qed.

(** X4. A sub-view that is created and destroyed leaves no trace but the
    move of the parent's cursor: the memory afterwards is the memory before
    with that one cursor moved by the size, in [uint] arithmetic. With size 0
    the memory afterwards is the memory before. *)
Theorem sub_view_leaves_no_trace_but_the_cursor
  (m : Memory) (p : objref) (P : StringParameters) (k : Z) :
  objects m !! p = Some P ->
  is_uint (offset P) ->
  k <= wrap32 (num_param P - offset P) ->
  exists c m1,
    StringParameters_sub p k m = Done c m1 /\
    StringParameters_dtor c m1 = Done tt (moved_to (wrap32 (offset P + k)) p P m) /\
    (k = 0 -> StringParameters_dtor c m1 = Done tt m).
Proof.
  intros Hlive Ho Hk.
  destruct (sub_then_dtor m p P k Hlive Hk) as [Hsub Hd].
  eexists _, _. split; [exact Hsub|]. split; [exact Hd|].
  intros ->. rewrite Hd, Z.add_0_r, wrap32_small by exact Ho.
  rewrite (moved_to_same _ _ _ Hlive). reflexivity.
Qed.

(** X5. Two sub-views made one after the other, each destroyed before the
    next is made, cover adjacent windows: the second begins at the slot after
    the last slot of the first, and when both are gone the parent's cursor
    has moved by the sum of the two sizes and nothing else has changed. *)
Theorem successive_sub_views_are_adjacent
  (m : Memory) (p : objref) (P : StringParameters) (k1 k2 : Z) :
  objects m !! p = Some P ->
  wf_list P ->
  0 <= k1 -> 0 <= k2 ->
  k1 + k2 <= num_param P - offset P ->
  exists c1 m1 m2 c2 m3,
    StringParameters_sub p k1 m = Done c1 m1 /\
    StringParameters_dtor c1 m1 = Done tt m2 /\
    StringParameters_sub p k2 m2 = Done c2 m3 /\
    data <$> objects m3 !! c2 = Some (data P + offset P + k1) /\
    StringParameters_dtor c2 m3 =
      Done tt (moved_to (offset P + k1 + k2) p P m) /\
    GetDataLeft p (moved_to (offset P + k1 + k2) p P m) =
      Done (num_param P - offset P - k1 - k2)
           (moved_to (offset P + k1 + k2) p P m).
Proof.
  intros Hlive Hwf Hk1 Hk2 Hsum.
  pose proof (wf_list_left P Hwf) as Hleft. destruct Hwf as [Ho Hn].
  destruct (sub_then_dtor m p P k1 Hlive) as [Hs1 Hd1]; [lia|].
  rewrite (wrap32_small (offset P + k1)) in Hd1 by lia.
  set (P1 := set_offset (offset P + k1) P).
  set (m2 := moved_to (offset P + k1) p P m) in *.
  assert (HP1 : objects m2 !! p = Some P1) by apply moved_to_lookup.
  destruct (sub_then_dtor m2 p P1 k2 HP1) as [Hs2 Hd2].
  { cbn. rewrite wrap32_small by lia. lia. }
  cbn [offset P1 set_offset] in Hd2.
  rewrite (wrap32_small (offset P + k1 + k2)) in Hd2 by lia.
  unfold m2, P1 in Hd2. rewrite moved_to_twice in Hd2.
  eexists _, _, m2, _, _.
  split; [exact Hs1|]. split; [exact Hd1|]. split; [exact Hs2|].
  split; [|split; [exact Hd2|]].
  - rewrite allocated_lookup_new. cbn. f_equal. lia.
  - rewrite (GetDataLeft_live _ p (set_offset (offset P + k1 + k2) P))
      by apply moved_to_lookup.
    cbn [offset num_param set_offset]. rewrite wrap32_small by lia.
    f_equal. lia.
Qed.

(** X6. Sub-views nest: a sub-view of a sub-view begins at the child's
    cursor inside the parent's window, its destruction moves the cursor of
    the child only, and the parent's cursor moves, by the child's size, only
    when the child itself is destroyed. *)
Theorem nested_sub_view_reports_to_its_own_parent
  (m : Memory) (p : objref) (P : StringParameters) (k g : Z) :
  objects m !! p = Some P ->
  wf_list P ->
  0 <= g <= k ->
  k <= num_param P - offset P ->
  exists c m1 gc m2 m3 m4,
    StringParameters_sub p k m = Done c m1 /\
    StringParameters_sub c g m1 = Done gc m2 /\
    data <$> objects m2 !! gc = Some (data P + offset P) /\
    StringParameters_dtor gc m2 = Done tt m3 /\
    cursor m3 c = Some g /\
    cursor m3 p = Some (offset P) /\
    StringParameters_dtor c m3 = Done tt m4 /\
    cursor m4 p = Some (offset P + k).
Proof.
  intros Hlive Hwf Hg Hk.
  pose proof (wf_list_left P Hwf) as Hleft. destruct Hwf as [Ho Hn].
  set (c := fresh (dom (objects m))).
  set (C := child_view p P k).
  set (m1 := allocated C m).
  assert (Hpc : p <> c) by (eapply live_not_fresh; exact Hlive).
  assert (Hc1 : objects m1 !! c = Some C) by apply allocated_lookup_new.
  assert (Hp1 : objects m1 !! p = Some P)
    by (apply allocated_lookup_old; exact Hlive).
  destruct (sub_then_dtor m1 c C g Hc1) as [Hs2 Hd2].
  { cbn. rewrite Z.sub_0_r, wrap32_small by lia. lia. }
  cbn [offset C child_view] in Hd2.
  rewrite Z.add_0_l, (wrap32_small g) in Hd2 by lia.
  set (m3 := moved_to g c C m1) in *.
  assert (Hc3 : objects m3 !! c = Some (set_offset g C)) by apply moved_to_lookup.
  assert (Hp3 : objects m3 !! p = Some P).
  { unfold m3. rewrite moved_to_lookup_ne by exact Hpc. exact Hp1. }
  destruct (cursor_after_child_dtor m3 c (set_offset g C) p P Hc3 eq_refl Hp3 Hpc)
    as (m4 & Hd4 & Hp4 & _).
  exists c, m1. eexists _, _. exists m3, m4.
  split; [apply StringParameters_sub_done; [exact Hlive | lia]|].
  split; [exact Hs2|]. split; [|split; [exact Hd2|]].
  - rewrite allocated_lookup_new. cbn. f_equal. lia.
  - split; [unfold cursor; rewrite Hc3; reflexivity|].
    split; [unfold cursor; rewrite Hp3; reflexivity|].
    split; [exact Hd4|].
    unfold cursor. rewrite Hp4. cbn. rewrite wrap32_small by lia. reflexivity.
Qed.

(** X7. Two sub-views of one parent that are live at the same time
    overlap: both begin at the parent's cursor. When both are destroyed, in
    either order, the parent's cursor has moved by the sum of the two sizes,
    in [uint] arithmetic. *)
Theorem sibling_sub_views_overlap
  (m : Memory) (p : objref) (P : StringParameters) (k1 k2 : Z) :
  objects m !! p = Some P ->
  k1 <= wrap32 (num_param P - offset P) ->
  k2 <= wrap32 (num_param P - offset P) ->
  exists c1 m1 c2 m2,
    StringParameters_sub p k1 m = Done c1 m1 /\
    StringParameters_sub p k2 m1 = Done c2 m2 /\
    data <$> objects m2 !! c1 = Some (data P + offset P) /\
    data <$> objects m2 !! c2 = Some (data P + offset P) /\
    (exists m3 m4,
       StringParameters_dtor c1 m2 = Done tt m3 /\
       StringParameters_dtor c2 m3 = Done tt m4 /\
       cursor m4 p = Some (wrap32 (offset P + k1 + k2))) /\
    (exists m3 m4,
       StringParameters_dtor c2 m2 = Done tt m3 /\
       StringParameters_dtor c1 m3 = Done tt m4 /\
       cursor m4 p = Some (wrap32 (offset P + k1 + k2))).
Proof.
  intros Hlive Hk1 Hk2.
  set (c1 := fresh (dom (objects m))).
  set (C1 := child_view p P k1).
  set (m1 := allocated C1 m).
  assert (Hc1 : objects m1 !! c1 = Some C1) by apply allocated_lookup_new.
  assert (Hp1 : objects m1 !! p = Some P)
    by (apply allocated_lookup_old; exact Hlive).
  set (c2 := fresh (dom (objects m1))).
  set (C2 := child_view p P k2).
  set (m2 := allocated C2 m1).
  assert (Hc2 : objects m2 !! c2 = Some C2) by apply allocated_lookup_new.
  assert (Hc12 : objects m2 !! c1 = Some C1)
    by (apply allocated_lookup_old; exact Hc1).
  assert (Hp2 : objects m2 !! p = Some P)
    by (apply allocated_lookup_old; exact Hp1).
  assert (Hne : c1 <> c2) by (eapply live_not_fresh; exact Hc1).
  assert (Hpc1 : p <> c1) by (eapply live_not_fresh; exact Hlive).
  assert (Hpc2 : p <> c2) by (eapply live_not_fresh; exact Hp1).
  exists c1, m1, c2, m2.
  split; [apply StringParameters_sub_done; assumption|].
  split; [apply StringParameters_sub_done; assumption|].
  split; [rewrite Hc12; reflexivity|].
  split; [rewrite Hc2; reflexivity|]. split.
  - apply (two_children_die m2 c1 C1 c2 C2 p P); auto.
  - destruct (two_children_die m2 c2 C2 c1 C1 p P) as (m3 & m4 & H3 & H4 & Hcur);
      auto.
    exists m3, m4. split; [exact H3|]. split; [exact H4|].
    rewrite Hcur. cbn. do 2 f_equal. lia.
Qed.

(** X8. What the destructor never touches: when it returns, the slots and
    the tags are as before, the destroyed instance is dead, and every other
    live instance is still live with the same parent, data, type and length;
    its cursor is as before too unless it is the parent of the destroyed
    instance. *)
Theorem dtor_changes_only_the_parent_cursor
  (m : Memory) (c : objref) (m' : Memory) :
  StringParameters_dtor c m = Done tt m' ->
  slots m' = slots m /\
  tags m' = tags m /\
  objects m' !! c = None /\
  forall r R, r <> c -> objects m !! r = Some R ->
    exists o,
      objects m' !! r = Some (set_offset o R) /\
      ((forall C, objects m !! c = Some C -> parent C <> Some r) -> o = offset R).
Proof.
  unfold StringParameters_dtor, bind, get_object.
  destruct (objects m !! c) as [C|] eqn:Hc; [|discriminate].
  destruct (parent C) as [p|] eqn:Hp.
  - destruct (objects m !! p) as [PP|] eqn:HP; [|discriminate].
    cbn. intros [= <-]. cbn. repeat split.
    + apply lookup_delete_eq.
    + intros r R Hrc Hr. rewrite lookup_delete_ne by congruence.
      destruct (decide (r = p)) as [-> | Hrp].
      * rewrite lookup_insert_eq. assert (R = PP) as -> by congruence.
        eexists. split; [reflexivity|].
        intros Hno. exfalso. exact (Hno C eq_refl Hp).
      * rewrite lookup_insert_ne by congruence. exists (offset R).
        rewrite set_offset_same. split; [exact Hr | reflexivity].
  - cbn. intros [= <-]. cbn. repeat split.
    + apply lookup_delete_eq.
    + intros r R Hrc Hr. rewrite lookup_delete_ne by congruence.
      exists (offset R). rewrite set_offset_same. split; [exact Hr | reflexivity].
Qed.

Lemma wf_memory_insert m r sp :
  wf_memory m -> wf_list sp ->
  wf_memory (with_objects (<[r := sp]> (objects m)) m).
Proof.
  intros Hm Hsp q Q. cbn. destruct (decide (r = q)) as [-> | Hne].
  - rewrite lookup_insert_eq. intros [= <-]. exact Hsp.
  - rewrite lookup_insert_ne by exact Hne. apply Hm.
Qed.

Lemma wf_memory_delete m r :
  wf_memory m -> wf_memory (with_objects (delete r (objects m)) m).
Proof.
  intros Hm q Q. cbn. destruct (decide (r = q)) as [-> | Hne].
  - rewrite lookup_delete_eq. discriminate.
  - rewrite lookup_delete_ne by exact Hne. apply Hm.
Qed.

(** X9. The cursor stays within the length. In a memory where every live
    list has [0 <= offset <= num_param < 2^32], this still holds after each
    constructor (for a length and a size that are [uint]), after
    [GetRemainingParameters] and after [SetParam]; and it holds after a
    destructor when the destroyed view has no parent or when its length fits
    in what its parent has left. *)
Theorem cursor_stays_within_length (m : Memory) :
  wf_memory m ->
  (forall d n t r m', is_uint n ->
     StringParameters_ctor d n t m = Done r m' -> wf_memory m') /\
  (forall d n r m',
     StringParameters_array d n m = Done r m' -> wf_memory m') /\
  (forall p k c m', 0 <= k ->
     StringParameters_sub p k m = Done c m' -> wf_memory m') /\
  (forall r v m',
     GetRemainingParameters r m = Done v m' -> wf_memory m') /\
  (forall r n v m',
     SetParam r n v m = Done tt m' -> wf_memory m') /\
  (forall c C m',
     objects m !! c = Some C ->
     (forall p P, parent C = Some p -> objects m !! p = Some P ->
        offset P + num_param C <= num_param P) ->
     StringParameters_dtor c m = Done tt m' -> wf_memory m').
Proof.
  intros Hm. split; [|split; [|split; [|split; [|split]]]].
  - intros d n t r m' Hn [= _ <-]. apply wf_memory_insert; [exact Hm|].
    unfold wf_list, is_uint in *. cbn. lia.
  - intros d n r m' [= _ <-]. apply wf_memory_insert; [exact Hm|].
    pose proof (wrap32_range n). unfold wf_list. cbn. lia.
  - intros p k c m' Hk. unfold StringParameters_sub, bind, get_object, GetDataLeft.
    destruct (objects m !! p) as [P|] eqn:HP; [|discriminate].
    cbn. unfold bind, get_object. rewrite HP. cbn. unfold assert.
    destruct (k <=? wrap32 (num_param P - offset P)) eqn:Hle; [|discriminate].
    intros [= _ <-]. apply wf_memory_insert; [exact Hm|].
    apply Z.leb_le in Hle. pose proof (wrap32_range (num_param P - offset P)).
    unfold wf_list. cbn. lia.
  - intros r v m'. unfold GetRemainingParameters, bind, get_object, GetDataLeft.
    destruct (objects m !! r) as [sp|] eqn:Hr; [|discriminate].
    cbn. unfold bind, get_object. rewrite Hr. cbn.
    intros [= _ <-]. apply wf_memory_insert; [exact Hm|].
    pose proof (wrap32_range (num_param sp - offset sp)).
    unfold wf_list. cbn. lia.
  - intros r n v m'. unfold SetParam, bind, get_object.
    destruct (objects m !! r) as [sp|]; [|discriminate].
    cbn. unfold assert. destruct (n <? num_param sp); [|discriminate].
    unfold store_slot. destruct (slots m !! (data sp + n)); [|discriminate].
    intros [= <-]. exact Hm.
  - intros c C m' Hc Hfit.
    unfold StringParameters_dtor, bind, get_object. rewrite Hc.
    destruct (parent C) as [p|] eqn:Hp.
    + destruct (objects m !! p) as [P|] eqn:HP; [|discriminate].
      cbn. intros [= <-].
      set (P' := set_offset (wrap32 (offset P + num_param C)) P).
      change (wf_memory (with_objects
                (delete c (objects (with_objects (<[p := P']> (objects m)) m)))
                (with_objects (<[p := P']> (objects m)) m))).
      apply wf_memory_delete, wf_memory_insert; [exact Hm|]. subst P'.
      specialize (Hfit p P eq_refl HP).
      destruct (Hm p P HP) as [HoP HnP]. destruct (Hm c C Hc) as [HoC HnC].
      unfold wf_list. cbn. rewrite wrap32_small by lia. lia.
    + cbn. intros [= <-]. apply wf_memory_delete. exact Hm.
Qed.

Lemma to_int32_range v : is_int32 (to_int32 v).
Proof.
  unfold is_int32, to_int32, to_signed, wrap.
  pose proof (Z.mod_pos_bound v (2 ^ 32) ltac:(lia)) as Hb.
  change (2 ^ (32 - 1)) with (2 ^ 31).
  destruct (Z.ltb_spec (v mod 2 ^ 32) (2 ^ 31)); lia.
Qed.

Lemma to_int32_fixed v : is_int32 v -> to_int32 v = v.
Proof.
  unfold is_int32, to_int32, to_signed, wrap. intros Hv.
  change (2 ^ (32 - 1)) with (2 ^ 31).
  destruct (Z_lt_dec v 0) as [Hneg | Hpos].
  - replace (v mod 2 ^ 32) with (v + 2 ^ 32).
    + destruct (Z.ltb_spec (v + 2 ^ 32) (2 ^ 31)); lia.
    + symmetry. replace v with ((v + 2 ^ 32) + (-1) * 2 ^ 32) at 1 by lia.
      rewrite Z_mod_plus_full. apply Z.mod_small. lia.
  - rewrite Z.mod_small by lia.
    destruct (Z.ltb_spec v (2 ^ 31)); lia.
Qed.

Lemma to_int32_low_bits v : wrap32 (to_int32 v) = wrap32 v.
Proof.
  unfold to_int32, to_signed, wrap32, wrap.
  change (2 ^ (32 - 1)) with (2 ^ 31).
  destruct (Z.ltb_spec (v mod 2 ^ 32) (2 ^ 31)).
  - apply Z.mod_mod. lia.
  - replace (v mod 2 ^ 32 - 2 ^ 32) with (v mod 2 ^ 32 + (-1) * 2 ^ 32) by lia.
    rewrite Z_mod_plus_full. apply Z.mod_mod. lia.
Qed.

(** X10. [GetInt32] is [GetInt64] narrowed: it stops exactly when
    [GetInt64] stops and leaves the same memory; what it returns is in the
    range of [int32], has the low 32 bits of what [GetInt64] returns, and is
    that very value whenever it fits in an [int32]. *)
Theorem GetInt32_narrows_GetInt64 (r : objref) (m : Memory) :
  (forall v m', GetInt64 r m = Done v m' ->
     exists w,
       GetInt32 r m = Done w m' /\
       is_int32 w /\
       wrap32 w = wrap32 v /\
       (is_int32 v -> w = v)) /\
  (forall m', GetInt64 r m = AssertionFailed m' ->
     GetInt32 r m = AssertionFailed m') /\
  (GetInt64 r m = Undefined -> GetInt32 r m = Undefined).
Proof.
  unfold GetInt32, bind. repeat split.
  - intros v m' ->. exists (to_int32 v). split; [reflexivity|].
    split; [apply to_int32_range|]. split; [apply to_int32_low_bits|].
    apply to_int32_fixed.
  - intros m' ->. reflexivity.
  - intros ->. reflexivity.
Qed.

(** * Further properties of the output builder *)

Lemma size_app (s t : StringBuilder.buffer) :
  StringBuilder.size (s ++ t) = StringBuilder.size s + StringBuilder.size t.
Proof. unfold StringBuilder.size. rewrite length_app. lia. Qed.

Lemma size_nonneg (s : StringBuilder.buffer) : 0 <= StringBuilder.size s.
Proof. unfold StringBuilder.size. lia. Qed.

Lemma RemoveElementsFromBack_take (s : StringBuilder.buffer) (amount : Z) :
  is_size_t amount ->
  is_size_t (StringBuilder.size s) ->
  StringBuilder.RemoveElementsFromBack amount s =
    Some (take (Z.to_nat (StringBuilder.size s - Z.min amount (StringBuilder.size s))) s).
Proof.
  unfold is_size_t, StringBuilder.RemoveElementsFromBack, StringBuilder.erase.
  intros Ha Hs.
  rewrite wrap64_small by lia.
  destruct (Z.leb_spec (StringBuilder.size s - Z.min amount (StringBuilder.size s))
                       (StringBuilder.size s)); [reflexivity | lia].
Qed.

Lemma get_at_inside (s : StringBuilder.buffer) (i : Z) :
  0 <= i < StringBuilder.size s ->
  StringBuilder.get_at i s = s !! Z.to_nat i.
Proof.
  intros Hi. unfold StringBuilder.get_at.
  destruct (Z.leb_spec 0 i); [|lia].
  destruct (Z.ltb_spec i (StringBuilder.size s)); [reflexivity | lia].
Qed.

(** X11. Removing from the back as many characters as were just appended
    gives back the string of before the append, whether the text was appended
    in one call or one character at a time, and whether the amount is the
    length of the text or the difference of [CurrentIndex] after and
    before. *)
Theorem RemoveElementsFromBack_undoes_append
  (s : StringBuilder.buffer) (str : list ascii) :
  is_size_t (StringBuilder.size s + StringBuilder.size str) ->
  StringBuilder.RemoveElementsFromBack (StringBuilder.size str)
    (StringBuilder.append_view str s) = Some s /\
  StringBuilder.RemoveElementsFromBack (StringBuilder.size str)
    (StringBuilder.append_each str s) = Some s /\
  StringBuilder.RemoveElementsFromBack
    (StringBuilder.CurrentIndex (StringBuilder.append_view str s)
     - StringBuilder.CurrentIndex s)
    (StringBuilder.append_view str s) = Some s.
Proof.
  intros Hsz.
  pose proof (size_nonneg s) as Hs. pose proof (size_nonneg str) as Hstr.
  assert (Hview : StringBuilder.RemoveElementsFromBack (StringBuilder.size str)
                    (StringBuilder.append_view str s) = Some s).
  { unfold StringBuilder.append_view. unfold is_size_t in Hsz.
    rewrite RemoveElementsFromBack_take
      by (unfold is_size_t; rewrite ?size_app; lia).
    rewrite size_app.
    replace (StringBuilder.size s + StringBuilder.size str
             - Z.min (StringBuilder.size str)
                     (StringBuilder.size s + StringBuilder.size str))
      with (StringBuilder.size s) by lia.
    unfold StringBuilder.size. rewrite Nat2Z.id, take_app_length. reflexivity. }
  split; [exact Hview|]. split.
  - rewrite StringBuilderFacts.append_each_app. exact Hview.
  - unfold StringBuilder.CurrentIndex, StringBuilder.append_view.
    rewrite size_app.
    replace (StringBuilder.size s + StringBuilder.size str - StringBuilder.size s)
      with (StringBuilder.size str) by lia.
    exact Hview.
Qed.

(** X12. Removing [a] characters and then [b] characters from the back is
    removing [a + b] at once, also when the string is shorter than that; and
    removing 0 characters changes nothing. *)
Theorem RemoveElementsFromBack_twice
  (s : StringBuilder.buffer) (a b : Z) :
  is_size_t a -> is_size_t b -> is_size_t (a + b) ->
  is_size_t (StringBuilder.size s) ->
  (exists s1,
     StringBuilder.RemoveElementsFromBack a s = Some s1 /\
     StringBuilder.RemoveElementsFromBack b s1 =
       StringBuilder.RemoveElementsFromBack (a + b) s) /\
  StringBuilder.RemoveElementsFromBack 0 s = Some s.
Proof.
  intros Ha Hb Hab Hs. pose proof (size_nonneg s) as Hs0. split.
  - eexists. split; [apply RemoveElementsFromBack_take; assumption|].
    set (n1 := Z.to_nat (StringBuilder.size s - Z.min a (StringBuilder.size s))).
    assert (Hsz1 : StringBuilder.size (take n1 s) =
                   StringBuilder.size s - Z.min a (StringBuilder.size s)).
    { unfold StringBuilder.size. rewrite length_take.
      unfold n1, StringBuilder.size, is_size_t in *. lia. }
    rewrite !RemoveElementsFromBack_take;
      try assumption; [| unfold is_size_t in *; rewrite Hsz1; lia].
    rewrite Hsz1, take_take. do 2 f_equal. unfold n1, is_size_t in *. lia.
  - rewrite RemoveElementsFromBack_take by (assumption || (unfold is_size_t; lia)).
    rewrite Z.min_l, Z.sub_0_r by lia.
    unfold StringBuilder.size. rewrite Nat2Z.id, firstn_all. reflexivity.
Qed.

(** X13. [CurrentIndex] is where the next character goes: after an append,
    the characters written before are where they were, the appended text
    begins at the index that [CurrentIndex] gave before the append, and
    [CurrentIndex] has grown by the length of the text (by one for a single
    character). *)
Theorem appended_text_begins_at_CurrentIndex
  (s : StringBuilder.buffer) (str : list ascii) :
  StringBuilder.CurrentIndex (StringBuilder.append_view str s) =
    StringBuilder.CurrentIndex s + StringBuilder.size str /\
  (forall i, 0 <= i < StringBuilder.CurrentIndex s ->
     StringBuilder.get_at i (StringBuilder.append_view str s) =
       StringBuilder.get_at i s) /\
  (forall i, 0 <= i < StringBuilder.size str ->
     StringBuilder.get_at (StringBuilder.CurrentIndex s + i)
       (StringBuilder.append_view str s) = str !! Z.to_nat i) /\
  (forall c,
     StringBuilder.CurrentIndex (StringBuilder.append_char c s) =
       StringBuilder.CurrentIndex s + 1 /\
     StringBuilder.get_at (StringBuilder.CurrentIndex s)
       (StringBuilder.append_char c s) = Some c).
Proof.
  unfold StringBuilder.CurrentIndex, StringBuilder.append_view,
    StringBuilder.append_char.
  pose proof (size_nonneg s) as Hs. pose proof (size_nonneg str) as Hstr.
  assert (Htail : forall (t : list ascii) i, 0 <= i < StringBuilder.size t ->
            StringBuilder.get_at (StringBuilder.size s + i) (s ++ t) =
              t !! Z.to_nat i).
  { intros t i Hi. rewrite get_at_inside by (rewrite size_app; lia).
    unfold StringBuilder.buffer. rewrite lookup_app_r by (unfold StringBuilder.size; lia).
    f_equal. unfold StringBuilder.size. lia. }
  split; [apply size_app|]. split; [|split].
  - intros i Hi. rewrite !get_at_inside by (rewrite ?size_app; lia).
    unfold StringBuilder.buffer. apply lookup_app_l. unfold StringBuilder.size in Hi. lia.
  - apply Htail.
  - intros c. split; [apply size_app|].
    rewrite <- (Z.add_0_r (StringBuilder.size s)) at 1.
    rewrite Htail by (unfold StringBuilder.size; cbn [length]; lia). reflexivity.
Qed.

(** X14. Writing through [operator[]] at an index below [CurrentIndex]
    patches that one character: it is read back at that index, every other
    index reads as before, and [CurrentIndex] has not changed. *)
Theorem set_at_patches_one_character
  (s : StringBuilder.buffer) (i : Z) (c : ascii) :
  0 <= i < StringBuilder.CurrentIndex s ->
  exists s',
    StringBuilder.set_at i c s = Some s' /\
    StringBuilder.CurrentIndex s' = StringBuilder.CurrentIndex s /\
    StringBuilder.get_at i s' = Some c /\
    forall j, j <> i -> StringBuilder.get_at j s' = StringBuilder.get_at j s.
Proof.
  unfold StringBuilder.CurrentIndex. intros Hi.
  assert (Hsz : StringBuilder.size (<[Z.to_nat i := c]> s) = StringBuilder.size s)
    by (unfold StringBuilder.size, StringBuilder.buffer;
        rewrite length_insert; reflexivity).
  exists (<[Z.to_nat i := c]> s). split; [|split; [exact Hsz|split]].
  - unfold StringBuilder.set_at.
    destruct (Z.leb_spec 0 i); [|lia].
    destruct (Z.ltb_spec i (StringBuilder.size s)); [reflexivity | lia].
  - rewrite get_at_inside by (rewrite Hsz; exact Hi).
    unfold StringBuilder.buffer. apply list_lookup_insert_eq. unfold StringBuilder.size in Hi. lia.
  - intros j Hj. unfold StringBuilder.get_at. rewrite Hsz.
    destruct ((0 <=? j) && (j <? StringBuilder.size s)) eqn:Hin; [|reflexivity].
    apply andb_true_iff in Hin. destruct Hin as [H0 _]. apply Z.leb_le in H0.
    unfold StringBuilder.buffer. apply list_lookup_insert_ne. lia.
Qed.

Lemma SetParam_done m r sp n v :
  objects m !! r = Some sp ->
  n < num_param sp ->
  is_Some (slots m !! (data sp + n)) ->
  SetParam r n v m = Done tt (with_slots (<[data sp + n := v]> (slots m)) m).
Proof.
  intros Hlive Hlt [old Hold]. apply Z.ltb_lt in Hlt.
  rewrite (SetParam_live _ _ _ n v Hlive), Hlt.
  unfold store_slot. rewrite Hold. reflexivity.
Qed.

(** X15. Two writes by [SetParam] to one index leave what the second alone
    leaves (the last write wins), and writes to two different indices leave
    the same memory in either order. *)
Theorem SetParam_last_write_wins
  (m : Memory) (r : objref) (sp : StringParameters) (n n' v w : Z) :
  objects m !! r = Some sp ->
  n < num_param sp ->
  n' < num_param sp ->
  is_Some (slots m !! (data sp + n)) ->
  is_Some (slots m !! (data sp + n')) ->
  (exists m1 m2,
     SetParam r n v m = Done tt m1 /\
     SetParam r n w m1 = Done tt m2 /\
     SetParam r n w m = Done tt m2) /\
  (n <> n' ->
   exists m1 m1' m2,
     SetParam r n v m = Done tt m1 /\
     SetParam r n' w m1 = Done tt m2 /\
     SetParam r n' w m = Done tt m1' /\
     SetParam r n v m1' = Done tt m2).
Proof.
  intros Hlive Hn Hn' Hs Hs'.
  pose proof (SetParam_done m r sp n v Hlive Hn Hs) as H1.
  pose proof (SetParam_done m r sp n w Hlive Hn Hs) as H1w.
  pose proof (SetParam_done m r sp n' w Hlive Hn' Hs') as H1'.
  split.
  - eexists _, _. split; [exact H1|]. split; [|exact H1w].
    rewrite (SetParam_done _ r sp n w) by
      (try assumption; cbn; rewrite lookup_insert_eq; eauto).
    cbn. unfold with_slots. cbn. rewrite insert_insert_eq. reflexivity.
  - intros Hne. eexists _, _, _. split; [exact H1|].
    split; [|split; [exact H1'|]].
    + apply (SetParam_done _ r sp n' w); try assumption.
      cbn. rewrite lookup_insert_ne by lia. exact Hs'.
    + rewrite (SetParam_done _ r sp n v) by
        (try assumption; cbn; rewrite lookup_insert_ne by lia; exact Hs).
      cbn. unfold with_slots. cbn.
      rewrite (insert_insert_ne _ (data sp + n) (data sp + n')) by lia.
      reflexivity.
Qed.

(** X16. [GetDataLeft] subtracts in [uint] arithmetic and does not compare:
    for a list whose cursor is beyond its length it returns
    [2^32 - (offset - num_param)], which is more than the length, and with
    it the sub-view constructor accepts every size up to the length of the
    list. *)
Theorem GetDataLeft_wraps_when_cursor_is_past_the_length
  (m : Memory) (p : objref) (P : StringParameters) (k : Z) :
  objects m !! p = Some P ->
  is_uint (offset P) ->
  is_uint (num_param P) ->
  num_param P < offset P ->
  k <= num_param P ->
  GetDataLeft p m = Done (2 ^ 32 - (offset P - num_param P)) m /\
  num_param P < 2 ^ 32 - (offset P - num_param P) /\
  exists c m1, StringParameters_sub p k m = Done c m1.
Proof.
  unfold is_uint. intros Hlive Ho Hn Hpast Hk.
  assert (Hw : wrap32 (num_param P - offset P) =
               2 ^ 32 - (offset P - num_param P)).
  { unfold wrap32, wrap.
    replace (num_param P - offset P)
      with ((2 ^ 32 - (offset P - num_param P)) + (-1) * 2 ^ 32) by lia.
    rewrite Z_mod_plus_full. apply Z.mod_small. lia. }
  split; [|split].
  - rewrite (GetDataLeft_live _ _ _ Hlive), Hw. reflexivity.
  - lia.
  - eexists _, _. apply StringParameters_sub_done; [exact Hlive|]. lia.
Qed.

(** * The further properties on the demo memory *)

Lemma demo_root_wf : wf_list demo_root_list.
Proof. unfold wf_list. cbn. lia. Defined.

Lemma demo_memory_wf : wf_memory demo_memory.
Proof. intros r sp H. cbn in H. rewrite lookup_empty in H. discriminate. Defined.

Lemma GetPointerToOffset_is_the_slot_of_GetParam_and_SetParam_witness :
  (exists a, GetPointerToOffset demo_root 1 demo_root_memory = Done a demo_root_memory /\
             GetParam demo_root 1 demo_root_memory = load_slot a demo_root_memory) /\
  GetPointerToOffset demo_root 3 demo_root_memory = AssertionFailed demo_root_memory.
Proof.
  split.
  - destruct (proj1 (GetPointerToOffset_is_the_slot_of_GetParam_and_SetParam
                       demo_root_memory demo_root demo_root_list 1 demo_root_live))
      as (a & H1 & H2 & _); [reflexivity|].
    exists a. split; assumption.
  - apply (proj2 (GetPointerToOffset_is_the_slot_of_GetParam_and_SetParam
                    demo_root_memory demo_root demo_root_list 3 demo_root_live)).
    cbn. lia.
Defined.

Lemma sub_view_is_a_window_on_its_parent_witness :
  exists c m1,
    StringParameters_sub demo_root 2 demo_root_memory = Done c m1 /\
    GetDataLeft c m1 = Done 2 m1 /\
    GetParam c 1 m1 = GetParam demo_root (0 + 1) m1 /\
    GetParam c 2 m1 = AssertionFailed m1.
Proof.
  destruct (sub_view_is_a_window_on_its_parent demo_root_memory demo_root
              demo_root_list 2 demo_root_live demo_root_wf)
    as (c & m1 & H1 & H2 & _ & H4 & H5); [cbn; lia|].
  exists c, m1. split; [exact H1|]. split; [exact H2|]. split.
  - apply (H4 1). lia.
  - apply (H5 2). lia.
Defined.

Lemma GetRemainingParameters_is_a_window_on_the_unread_slots_witness :
  exists v m1,
    GetRemainingParameters demo_root demo_root_memory = Done v m1 /\
    GetParam v 2 m1 = GetParam demo_root (0 + 2) m1 /\
    exists m2, SetParam v 2 9 m1 = Done tt m2 /\
               GetParam demo_root (0 + 2) m2 = Done 9 m2.
Proof.
  destruct (GetRemainingParameters_is_a_window_on_the_unread_slots
              demo_root_memory demo_root demo_root_list demo_root_live demo_root_wf)
    as (v & m1 & H1 & _ & H3).
  destruct (H3 2) as (_ & Hget & _ & _ & Hset); [cbn; lia|].
  exists v, m1. split; [exact H1|]. split; [exact Hget|].
  apply (Hset 9). exists 2. vm_compute. reflexivity.
Defined.

Lemma sub_view_leaves_no_trace_but_the_cursor_witness :
  exists c m1,
    StringParameters_sub demo_root 0 demo_root_memory = Done c m1 /\
    StringParameters_dtor c m1 = Done tt demo_root_memory.
Proof.
  destruct (sub_view_leaves_no_trace_but_the_cursor demo_root_memory demo_root
              demo_root_list 0 demo_root_live)
    as (c & m1 & H1 & _ & H3).
  - unfold is_uint. cbn. lia.
  - vm_compute. discriminate.
  - exists c, m1. split; [exact H1 | exact (H3 eq_refl)].
Defined.

Lemma successive_sub_views_are_adjacent_witness :
  exists c1 m1 m2 c2 m3,
    StringParameters_sub demo_root 1 demo_root_memory = Done c1 m1 /\
    StringParameters_dtor c1 m1 = Done tt m2 /\
    StringParameters_sub demo_root 2 m2 = Done c2 m3 /\
    data <$> objects m3 !! c2 = Some (100 + 0 + 1) /\
    StringParameters_dtor c2 m3 =
      Done tt (moved_to (0 + 1 + 2) demo_root demo_root_list demo_root_memory).
Proof.
  destruct (successive_sub_views_are_adjacent demo_root_memory demo_root
              demo_root_list 1 2 demo_root_live demo_root_wf)
    as (c1 & m1 & m2 & c2 & m3 & H1 & H2 & H3 & H4 & H5 & _);
    [lia | lia | cbn; lia |].
  exists c1, m1, m2, c2, m3. repeat split; assumption.
Defined.

Lemma nested_sub_view_reports_to_its_own_parent_witness :
  exists c m1 gc m2 m3 m4,
    StringParameters_sub demo_root 2 demo_root_memory = Done c m1 /\
    StringParameters_sub c 1 m1 = Done gc m2 /\
    StringParameters_dtor gc m2 = Done tt m3 /\
    cursor m3 c = Some 1 /\
    cursor m3 demo_root = Some 0 /\
    StringParameters_dtor c m3 = Done tt m4 /\
    cursor m4 demo_root = Some (0 + 2).
Proof.
  destruct (nested_sub_view_reports_to_its_own_parent demo_root_memory demo_root
              demo_root_list 2 1 demo_root_live demo_root_wf)
    as (c & m1 & gc & m2 & m3 & m4 & H1 & H2 & _ & H4 & H5 & H6 & H7 & H8);
    [lia | cbn; lia |].
  exists c, m1, gc, m2, m3, m4. repeat split; assumption.
Defined.

Lemma sibling_sub_views_overlap_witness :
  exists c1 m1 c2 m2 m3 m4,
    StringParameters_sub demo_root 2 demo_root_memory = Done c1 m1 /\
    StringParameters_sub demo_root 3 m1 = Done c2 m2 /\
    StringParameters_dtor c1 m2 = Done tt m3 /\
    StringParameters_dtor c2 m3 = Done tt m4 /\
    cursor m4 demo_root = Some (wrap32 (0 + 2 + 3)).
Proof.
  destruct (sibling_sub_views_overlap demo_root_memory demo_root demo_root_list 2 3
              demo_root_live)
    as (c1 & m1 & c2 & m2 & H1 & H2 & _ & _ & (m3 & m4 & H3 & H4 & H5) & _).
  - vm_compute. discriminate.
  - vm_compute. discriminate.
  - exists c1, m1, c2, m2, m3, m4. repeat split; assumption.
Defined.

Lemma dtor_changes_only_the_parent_cursor_witness :
  exists m',
    StringParameters_dtor demo_child demo_child_memory = Done tt m' /\
    slots m' = slots demo_child_memory /\
    objects m' !! demo_child = None.
Proof.
  assert (Hc : objects demo_child_memory !! demo_child = Some demo_child_view)
    by (vm_compute; reflexivity).
  assert (Hp : objects demo_child_memory !! demo_root = Some demo_root_list)
    by (vm_compute; reflexivity).
  pose proof (StringParameters_dtor_child demo_child_memory demo_child
                demo_child_view demo_root demo_root_list Hc eq_refl Hp) as Hd.
  destruct (dtor_changes_only_the_parent_cursor _ _ _ Hd) as (H1 & _ & H3 & _).
  eexists. split; [exact Hd|]. split; assumption.
Defined.

Lemma cursor_stays_within_length_witness :
  wf_memory demo_memory /\ wf_memory demo_root_memory.
Proof.
  split; [exact demo_memory_wf|].
  apply (proj1 (cursor_stays_within_length demo_memory demo_memory_wf)
           100 3 (Some 200) demo_root demo_root_memory).
  - unfold is_uint. lia.
  - exact demo_root_constructed.
Defined.

Lemma GetInt32_narrows_GetInt64_witness :
  GetInt64 demo_root demo_root_memory =
    Done 5 (advanced demo_root_memory demo_root demo_root_list) /\
  exists w,
    GetInt32 demo_root demo_root_memory =
      Done w (advanced demo_root_memory demo_root demo_root_list) /\
    is_int32 w.
Proof.
  assert (H : GetInt64 demo_root demo_root_memory =
              Done 5 (advanced demo_root_memory demo_root demo_root_list))
    by (vm_compute; reflexivity).
  split; [exact H|].
  destruct (proj1 (GetInt32_narrows_GetInt64 demo_root demo_root_memory) _ _ H)
    as (w & H1 & H2 & _).
  exists w. split; assumption.
Defined.

Lemma RemoveElementsFromBack_undoes_append_witness :
  StringBuilder.RemoveElementsFromBack 2
    (StringBuilder.append_view (list_ascii_of_string "cd") (list_ascii_of_string "ab")) =
    Some (list_ascii_of_string "ab").
Proof.
  apply (proj1 (RemoveElementsFromBack_undoes_append
                  (list_ascii_of_string "ab") (list_ascii_of_string "cd")
                  ltac:(vm_compute; split; [discriminate | reflexivity]))).
Defined.

Lemma RemoveElementsFromBack_twice_witness :
  exists s1,
    StringBuilder.RemoveElementsFromBack 1 (list_ascii_of_string "abc") = Some s1 /\
    StringBuilder.RemoveElementsFromBack 1 s1 =
      StringBuilder.RemoveElementsFromBack (1 + 1) (list_ascii_of_string "abc").
Proof.
  apply (proj1 (RemoveElementsFromBack_twice (list_ascii_of_string "abc") 1 1
                  ltac:(unfold is_size_t; lia) ltac:(unfold is_size_t; lia)
                  ltac:(unfold is_size_t; lia)
                  ltac:(vm_compute; split; [discriminate | reflexivity]))).
Defined.

Lemma appended_text_begins_at_CurrentIndex_witness :
  StringBuilder.get_at (2 + 1)
    (StringBuilder.append_view (list_ascii_of_string "cd") (list_ascii_of_string "ab")) =
    list_ascii_of_string "cd" !! 1%nat.
Proof.
  destruct (appended_text_begins_at_CurrentIndex
              (list_ascii_of_string "ab") (list_ascii_of_string "cd"))
    as (_ & _ & H & _).
  apply (H 1). vm_compute. split; [discriminate | reflexivity].
Defined.

Lemma set_at_patches_one_character_witness :
  exists s',
    StringBuilder.set_at 1 "X"%char (list_ascii_of_string "abc") = Some s' /\
    StringBuilder.get_at 1 s' = Some "X"%char.
Proof.
  destruct (set_at_patches_one_character (list_ascii_of_string "abc") 1 "X"%char)
    as (s' & H1 & _ & H3 & _).
  - vm_compute. split; [discriminate | reflexivity].
  - exists s'. split; assumption.
Defined.

Lemma SetParam_last_write_wins_witness :
  exists m1 m2,
    SetParam demo_root 1 8 demo_root_memory = Done tt m1 /\
    SetParam demo_root 1 9 m1 = Done tt m2 /\
    SetParam demo_root 1 9 demo_root_memory = Done tt m2.
Proof.
  apply (proj1 (SetParam_last_write_wins demo_root_memory demo_root demo_root_list
                  1 2 8 9 demo_root_live eq_refl eq_refl
                  ltac:(exists 7; vm_compute; reflexivity)
                  ltac:(exists 2; vm_compute; reflexivity))).
Defined.

Lemma GetDataLeft_wraps_when_cursor_is_past_the_length_witness :
  objects demo_overrun_memory !! demo_root = Some (set_offset 5 demo_root_list) /\
  GetDataLeft demo_root demo_overrun_memory =
    Done (2 ^ 32 - (5 - 3)) demo_overrun_memory /\
  exists c m1, StringParameters_sub demo_root 3 demo_overrun_memory = Done c m1.
Proof.
  assert (Hlive : objects demo_overrun_memory !! demo_root =
                  Some (set_offset 5 demo_root_list))
    by (vm_compute; reflexivity).
  split; [exact Hlive|].
  destruct (GetDataLeft_wraps_when_cursor_is_past_the_length
              demo_overrun_memory demo_root (set_offset 5 demo_root_list) 3 Hlive)
    as (H1 & _ & H3).
  - unfold is_uint. cbn. lia.
  - unfold is_uint. cbn. lia.
  - cbn. lia.
  - cbn. lia.
  - split; assumption.
Defined.
